(** * rpwavgen: the repeater WAV generator, embedded and verified

    A shallow embedding of [src/rpwavgen.py].  The script talks to three
    outside parties: the file system, the [pydub]/[wave] audio readers and
    writers, and the macOS speech synthesiser.  The file system is an
    explicit [World] threaded through a state-and-exception monad; the audio
    libraries and the synthesiser are the operations of the [Backend] class.
    Every function of the script is transcribed over that interface.

    Conventions of the embedding:
    - the [WAV_FORMAT] dict and the [argparse.Namespace] are records;
    - Python ints are [Z]; the gain is a binary64 ([PrimFloat.float]);
      [duration_seconds] and the quotient [sampling_rate / 8] are kept as
      exact rationals, which is what Python computes as long as the integers
      involved stay below [2^53];
    - each [print] is a constructor of [Printed] that carries the values
      interpolated into the message, appended to [stdout];
    - every call that reads or writes a file is also appended to [calls], so
      that the order of the steps of a run can be stated;
    - exceptions are values of [Exn]; a raised exception ends the run with
      the world as it was at the raise;
    - [parse_args] is not part of the embedding: [main] starts from the
      parsed [Namespace];
    - the busy wait for the synthesiser is taken to end. *)

From Stdlib Require Import ZArith QArith Qround Uint63 Floats Ascii String List Bool Lia.
From stdpp Require Import gmap strings list.

Set Warnings "-inexact-float".
Local Open Scope string_scope.
Local Open Scope Z_scope.

(** ** Module-level constants *)

(** The [WAV_FORMAT] dict is only ever read at its seven fixed keys. *)
Record WavFormat := {
  filename : string;
  format : string;
  max_length : Z;
  sampling_rate : Z;
  bit_rate : Z;
  channel : Z;
  modulation : string
}.

Definition FILE_NAME : string := "Speech.wav".

Definition WAV_FORMAT : WavFormat :=
  {| filename := FILE_NAME;
     format := "wav";
     max_length := 10;
     sampling_rate := 16;
     bit_rate := 16;
     channel := 1;
     modulation := "PCM" |}.

Definition NARRATOR : string := "com.apple.voice.enhanced.en-US.Allison".
Definition RATE : Z := 175.

(** ** What the audio libraries report about a file *)

Module pydub.
(** The property accessors of a [pydub.AudioSegment] that the script
    reads.  [duration_seconds] is a binary64 in Python; it is kept here as
    the exact quotient of frame count by frame rate. *)
Record AudioSegment := {
  duration_seconds : Q;
  frame_rate : Z;
  sample_width : Z;
  channels : Z
}.
End pydub.

Module wave.
(** The header fields a [wave.Wave_read] object returns. *)
Record Wave_read := {
  getsampwidth : Z;
  getframerate : Z;
  getnchannels : Z;
  getnframes : Z;
  getcomptype : string
}.
End wave.

(** A stored file, seen through the two readers the script uses:
    [pydub.AudioSegment.from_file] (which fails on an undecodable file) and
    [wave.open] (which fails on anything that is not a RIFF/WAVE file). *)
Record File := {
  from_file_view : option pydub.AudioSegment;
  wave_open_view : option wave.Wave_read
}.

(** ** Paths *)

(** A path is kept as its list of components.  An absolute path starts with
    the component ["/"]; empty components and ["."] are dropped, so that
    ["./x"], [".//x"] and ["x"] name the same file.  Two strings with the
    same components name the same file.  The converse holds only for
    relative paths without [".."]: [".."] is not resolved, the working
    directory has no absolute name here, and there are no links.  A
    statement that needs two paths to name different files says so for
    such paths only. *)
Definition Path := list string.

Fixpoint split_slash (acc : string) (s : string) : list string :=
  match s with
  | EmptyString => [acc]
  | String c rest =>
      if Ascii.eqb c "/"%char then acc :: split_slash "" rest
      else split_slash (acc ++ String c "") rest
  end.

Definition keep_component (c : string) : bool :=
  negb (String.eqb c "" || String.eqb c ".").

Definition isabs (s : string) : bool :=
  match s with
  | String c _ => Ascii.eqb c "/"
  | EmptyString => false
  end.

Definition normpath (s : string) : Path :=
  let comps := List.filter keep_component (split_slash "" s) in
  if isabs s then "/" :: comps else comps.

Definition dirname (p : Path) : Path := removelast p.

(** Paths on which the components decide which file is meant: relative,
    and without [".."]. *)
Definition relative_without_dotdot (s : string) : bool :=
  negb (isabs s) && negb (existsb (String.eqb "..") (normpath s)).

(** ** The world: file system, standard output, and a log of I/O calls *)

(** One constructor per [print] call of the script, carrying the values
    that are interpolated into the message. *)
Inductive Printed :=
| PrSampleWidth (bits : Z)
| PrFrameRate (hz : Z)
| PrNumberOfChannels (n : Z)
| PrNumberOfFrames (n : Z)
| PrCompressionType (tag : string)
| PrLikelyPCM
| PrMightNotBePCM
| PrTooLong (actual : Q) (limit : Z)
| PrWrongBitRate (actual expected : Z)
| PrWrongSamplingRate (actual : Z) (expected : Q)
| PrWrongChannelCount (actual expected : Z)
| PrWrongModulation (actual expected : string)
| PrInvalidOptions.

(** The fixed text of each message, as written in the script. *)
Definition message_text (m : Printed) : string :=
  match m with
  | PrSampleWidth _ => "Sample Width:"
  | PrFrameRate _ => "Frame Rate (Hz):"
  | PrNumberOfChannels _ => "Number of Channels:"
  | PrNumberOfFrames _ => "Number of Frames:"
  | PrCompressionType _ => "Compression Type:"
  | PrLikelyPCM => "This is likely a PCM file."
  | PrMightNotBePCM => "This file might not be PCM."
  | PrTooLong _ _ => "File is too long"
  | PrWrongBitRate _ _ => "File has wrong bit rate"
  | PrWrongSamplingRate _ _ => "File has wrong sampling rate"
  | PrWrongChannelCount _ _ => "File has wrong channel count"
  | PrWrongModulation _ _ => "File has wrong modulation type"
  | PrInvalidOptions => "Invalid options"
  end.

(** The calls that touch the file system, in the order they are made. *)
Inductive IOCall :=
| Synthesize (path : string)
| FromFile (path : string)
| WaveOpen (path : string)
| Export (path : string)
| OsRemove (path : string).

Inductive Exn :=
| FileNotFoundError (path : string)
| CouldntDecodeError (path : string)
| WaveError (path : string)
| OSError (path : string)
| ValueError (narrator : string)
| ArgumentTypeError (message : string).

Record World := {
  files : gmap Path File;
  dirs : gset Path;
  stdout : list Printed;
  calls : list IOCall
}.

(** The working directory and the root always exist. *)
Definition dir_exists (w : World) (d : Path) : bool :=
  bool_decide (d = []) || bool_decide (d = ["/"]) || bool_decide (d ∈ dirs w).

Definition exists_file (w : World) (path : string) : bool :=
  bool_decide (is_Some (files w !! normpath path)).

(** ** The monad of the script: state with exceptions *)

Inductive Outcome (A : Type) :=
| Returned (a : A)
| Raised (e : Exn).
Arguments Returned {A} a.
Arguments Raised {A} e.

Definition M (A : Type) : Type := World -> Outcome A * World.

Definition ret {A} (a : A) : M A := fun w => (Returned a, w).
Definition raise {A} (e : Exn) : M A := fun w => (Raised e, w).
Definition bind {A B} (m : M A) (k : A -> M B) : M B :=
  fun w => match m w with
           | (Returned a, w') => k a w'
           | (Raised e, w') => (Raised e, w')
           end.

Notation "'let*' x := m 'in' k" := (bind m (fun x => k))
  (at level 10, x name, m at level 100, k at level 200).
Notation "m ;;; k" := (bind m (fun _ => k))
  (at level 100, k at level 200, right associativity).

(** [try: m except h]: run [m]; if it raises, hand the exception to [h]. *)
Definition try_except {A} (m : M A) (h : Exn -> M A) : M A :=
  fun w => match m w with
           | (Returned a, w') => (Returned a, w')
           | (Raised e, w') => h e w'
           end.

Definition add_output (m : Printed) (w : World) : World :=
  {| files := files w; dirs := dirs w; stdout := stdout w ++ [m]; calls := calls w |}.

Definition add_call (c : IOCall) (w : World) : World :=
  {| files := files w; dirs := dirs w; stdout := stdout w; calls := calls w ++ [c] |}.

Definition set_files (fs : gmap Path File) (w : World) : World :=
  {| files := fs; dirs := dirs w; stdout := stdout w; calls := calls w |}.

Definition print (m : Printed) : M unit :=
  fun w => (Returned tt, add_output m w).

Definition log_call (c : IOCall) : M unit :=
  fun w => (Returned tt, add_call c w).

(** Creating or overwriting the file at [path]; opening for writing fails
    when the directory is missing.  Only the directory is looked at: that
    [path] itself is not a directory is a premise of the statements that
    need the write to succeed. *)
Definition write_file (path : string) (f : File) : M unit :=
  fun w =>
    if dir_exists w (dirname (normpath path)) then
      (Returned tt, set_files (<[normpath path := f]> (files w)) w)
    else (Raised (FileNotFoundError path), w).

Definition read_file (path : string) : M File :=
  fun w => match files w !! normpath path with
           | Some f => (Returned f, w)
           | None => (Raised (FileNotFoundError path), w)
           end.

(** ** The libraries behind the script *)

(** What the script asks of [pydub] and of [AppKit.NSSpeechSynthesizer].
    The three [set_*] methods and the encoder are pure functions of the
    decoded sound; the synthesiser returns the file it writes, or [None]
    when it writes nothing. *)
Class Backend := {
  set_frame_rate : pydub.AudioSegment -> Z -> pydub.AudioSegment;
  set_sample_width : pydub.AudioSegment -> Z -> pydub.AudioSegment;
  set_channels : pydub.AudioSegment -> Z -> pydub.AudioSegment;
  (** the bytes [export] writes, for a format, a codec and a bitrate *)
  encode : pydub.AudioSegment -> string -> string -> string -> File;
  availableVoices : list string;
  (** [startSpeakingString_toURL_] on a synthesiser created with a voice,
      after the optional [setVolume_] and [setRate_] *)
  startSpeakingString : string -> option float -> option Z -> option string -> option File
}.

(** ** The script's functions *)

(** *** [check_gain] *)

Section CheckGain.
(** Python's [float(value)] on a string: [None] stands for [ValueError]. *)
Variable py_float : string -> option float.

Definition check_gain (value : string) : Outcome float :=
  match py_float value with
  | None =>
      Raised (ArgumentTypeError (value ++ " is an invalid gain value. Use a float."))
  | Some fvalue =>
      if PrimFloat.leb 0.01%float fvalue && PrimFloat.leb fvalue 1.0%float
      then Returned fvalue
      else Raised (ArgumentTypeError "Gain must be between 0.01 and 1.0")
  end.
End CheckGain.

(** The parsed command line ([argparse.Namespace]). *)
Record Namespace := {
  text : option string;
  input : option string;
  convert : bool;
  validate : bool;
  output : string;
  gain : float;
  rate : Z;
  narrator : string
}.

Section Script.
Context {B : Backend}.

(** *** Library calls that touch the world *)

Definition AudioSegment_from_file (file : string) : M pydub.AudioSegment :=
  log_call (FromFile file) ;;;
  let* f := read_file file in
  match from_file_view f with
  | Some sound => ret sound
  | None => raise (CouldntDecodeError file)
  end.

Definition wave_open (file : string) : M wave.Wave_read :=
  log_call (WaveOpen file) ;;;
  let* f := read_file file in
  match wave_open_view f with
  | Some header => ret header
  | None => raise (WaveError file)
  end.

Definition AudioSegment_export (sound : pydub.AudioSegment)
    (out_f format codec bitrate : string) : M unit :=
  log_call (Export out_f) ;;;
  write_file out_f (encode sound format codec bitrate).

(** [os.remove]: it raises when the path holds no file.  The text of the
    error is shortened to a message and the path; statements about
    [remove_file] other than evaluations leave the text of the operating
    system open. *)
Definition os_remove (path : string) : M unit :=
  log_call (OsRemove path) ;;;
  fun w =>
    match files w !! normpath path with
    | Some _ => (Returned tt, set_files (delete (normpath path) (files w)) w)
    | None => (Raised (OSError ("No such file or directory: " ++ path)), w)
    end.

(** *** [validate_wav_mod] *)

Definition validate_wav_mod (file_name : string) : M bool :=
  let* wav_file := wave_open file_name in
  let sample_width := wave.getsampwidth wav_file in
  let frame_rate := wave.getframerate wav_file in
  let n_channels := wave.getnchannels wav_file in
  let n_frames := wave.getnframes wav_file in
  let comp_type := wave.getcomptype wav_file in
  print (PrSampleWidth (sample_width * 8)) ;;;
  print (PrFrameRate frame_rate) ;;;
  print (PrNumberOfChannels n_channels) ;;;
  print (PrNumberOfFrames n_frames) ;;;
  print (PrCompressionType comp_type) ;;;
  if String.eqb comp_type "NONE" then
    print PrLikelyPCM ;;; ret true
  else
    print PrMightNotBePCM ;;; ret false.

(** *** [validate_wav] *)

(** [a > b] on a float and an int, and [a != b] on an int and the float
    [n / 8]: both are comparisons by value in Python, and [n / 8] is exact
    in binary64 for every [n] below [2^53]. *)
Definition Qgtb (a b : Q) : bool := negb (Qle_bool a b).
Definition Qneb (a b : Q) : bool := negb (Qeq_bool a b).

Definition validate_wav (file_name : string) (wav_format : WavFormat) : M bool :=
  let* wav_file := AudioSegment_from_file file_name in
  let bit_rate := bit_rate wav_format * 1000 in
  let sampling_rate := (inject_Z (sampling_rate wav_format) / 8)%Q in
  let* is_pcm := validate_wav_mod file_name in
  let file_modulation := if is_pcm then "PCM" else "Not PCM" in
  if Qgtb (pydub.duration_seconds wav_file) (inject_Z (max_length wav_format)) then
    print (PrTooLong (pydub.duration_seconds wav_file) (max_length wav_format)) ;;;
    ret false
  else if negb (pydub.frame_rate wav_file =? bit_rate) then
    print (PrWrongBitRate (pydub.frame_rate wav_file) bit_rate) ;;;
    ret false
  else if Qneb (inject_Z (pydub.sample_width wav_file)) sampling_rate then
    print (PrWrongSamplingRate (pydub.sample_width wav_file) sampling_rate) ;;;
    ret false
  else if negb (pydub.channels wav_file =? channel wav_format) then
    print (PrWrongChannelCount (pydub.channels wav_file) (channel wav_format)) ;;;
    ret false
  else if negb (String.eqb file_modulation (modulation wav_format)) then
    print (PrWrongModulation file_modulation (modulation wav_format)) ;;;
    ret false
  else
    ret true.

(** *** [remove_file] *)

Definition remove_file (file_name : string) : M unit :=
  try_except (os_remove file_name)
    (fun exc =>
       match exc with
       | OSError msg =>
           raise (OSError ("Unable to remove file: " ++ file_name ++ " (" ++ msg ++ ")"))
       | other => raise other
       end).

(** *** [convert_to_wav] *)

Definition convert_to_wav (input_file output_file codec bitrate : string)
    (channels sample_width frame_rate : Z) : M unit :=
  let* sound := AudioSegment_from_file input_file in
  let sound := set_frame_rate sound frame_rate in
  let sound := set_sample_width sound sample_width in
  let sound := set_channels sound channels in
  AudioSegment_export sound output_file "wav" codec bitrate.

(** The call [convert_to_wav(input_file, output_file)], with the defaults
    of the signature. *)
Definition convert_to_wav_default (input_file output_file : string) : M unit :=
  convert_to_wav input_file output_file "pcm_s16le" "16k" 1 2 16000.

(** *** [list_voices] and [text_to_speech] *)

Definition list_voices : list string := availableVoices.

Definition truthy_float (x : float) : bool := negb (PrimFloat.eqb x 0%float).
Definition truthy_int (x : Z) : bool := negb (x =? 0).

(** The synthesiser does not raise: when it cannot write, nothing is
    written.  The busy wait on [isSpeaking] is taken to end. *)
Definition speak_to_URL (narrator : string) (volume : option float)
    (speech_rate : option Z) (text : option string) (output_file : string) : M unit :=
  log_call (Synthesize output_file) ;;;
  match startSpeakingString narrator volume speech_rate text with
  | Some f => try_except (write_file output_file f) (fun _ => ret tt)
  | None => ret tt
  end.

Definition text_to_speech (text : option string) (output_file narrator : string)
    (gain : option float) (rate : option Z) : M unit :=
  if negb (existsb (String.eqb narrator) list_voices) then
    raise (ValueError ("Invalid narrator: " ++ narrator))
  else
    let volume := match gain with
                  | Some g => if truthy_float g then Some g else None
                  | None => None
                  end in
    let speech_rate := match rate with
                       | Some r => if truthy_int r then Some r else None
                       | None => None
                       end in
    speak_to_URL narrator volume speech_rate text output_file.

(** *** [generate_wav] *)

(** The four calls leave the narrator, the conversion targets and the
    profile to the defaults of the callees' signatures; the [wav_format]
    argument is not passed on.  The synthesiser and the converter are given
    the bare name of the temporary file, the cleanup is given that name
    under the output directory. *)
Definition generate_wav (pargs : Namespace) (wav_format : WavFormat) : M unit :=
  let temp_speech := "temp_speech.aiff" in
  text_to_speech (text pargs) temp_speech NARRATOR (Some (gain pargs)) (Some (rate pargs)) ;;;
  convert_to_wav_default temp_speech (output pargs ++ "/" ++ FILE_NAME) ;;;
  remove_file (output pargs ++ "/" ++ temp_speech) ;;;
  (validate_wav (output pargs ++ "/" ++ FILE_NAME) WAV_FORMAT ;;; ret tt).

(** *** [main], after [parse_args] *)

Definition truthy_str (s : option string) : bool :=
  match s with
  | Some s => negb (String.eqb s "")
  | None => false
  end.

Definition main (pargs : Namespace) : M unit :=
  if truthy_str (text pargs) then
    generate_wav pargs WAV_FORMAT
  else
    match input pargs with
    | Some input_file =>
        if truthy_str (input pargs) && validate pargs then
          validate_wav input_file WAV_FORMAT ;;; ret tt
        else if truthy_str (input pargs) && convert pargs then
          convert_to_wav_default input_file (output pargs ++ "/" ++ FILE_NAME)
        else
          print PrInvalidOptions
    | None => print PrInvalidOptions
    end.

End Script.

(** ** A reference back end and what any back end must honour *)

(** A PCM WAVE file holding a given sound: both readers can open it. *)
Definition pcm_wav (sound : pydub.AudioSegment) : File :=
  {| from_file_view := Some sound;
     wave_open_view :=
       Some {| wave.getsampwidth := pydub.sample_width sound;
               wave.getframerate := pydub.frame_rate sound;
               wave.getnchannels := pydub.channels sound;
               wave.getnframes :=
                 Qfloor (pydub.duration_seconds sound * inject_Z (pydub.frame_rate sound));
               wave.getcomptype := "NONE" |} |}.

(** An AIFF file: [pydub] decodes it, [wave.open] refuses it. *)
Definition aiff (sound : pydub.AudioSegment) : File :=
  {| from_file_view := Some sound; wave_open_view := None |}.

Definition with_frame_rate (s : pydub.AudioSegment) (r : Z) : pydub.AudioSegment :=
  {| pydub.duration_seconds := pydub.duration_seconds s;
     pydub.frame_rate := r;
     pydub.sample_width := pydub.sample_width s;
     pydub.channels := pydub.channels s |}.

Definition with_sample_width (s : pydub.AudioSegment) (w : Z) : pydub.AudioSegment :=
  {| pydub.duration_seconds := pydub.duration_seconds s;
     pydub.frame_rate := pydub.frame_rate s;
     pydub.sample_width := w;
     pydub.channels := pydub.channels s |}.

Definition with_channels (s : pydub.AudioSegment) (c : Z) : pydub.AudioSegment :=
  {| pydub.duration_seconds := pydub.duration_seconds s;
     pydub.frame_rate := pydub.frame_rate s;
     pydub.sample_width := pydub.sample_width s;
     pydub.channels := c |}.

(** The reference back end: conversions change exactly the property they are
    asked to change, the encoder writes 16-bit PCM, and the synthesiser knows
    one voice and speaks ten characters a second into a 22050 Hz AIFF. *)
Definition reference_backend : Backend :=
  {| set_frame_rate := with_frame_rate;
     set_sample_width := with_sample_width;
     set_channels := with_channels;
     encode := fun sound _ _ _ => pcm_wav (with_sample_width sound 2);
     availableVoices := [NARRATOR];
     startSpeakingString := fun _ _ _ text =>
       match text with
       | Some t =>
           Some (aiff {| pydub.duration_seconds := Z.of_nat (String.length t) # 10;
                         pydub.frame_rate := 22050;
                         pydub.sample_width := 2;
                         pydub.channels := 1 |})
       | None => None
       end |}.

(** The same machine without a decoder for AIFF: what the synthesiser
    writes cannot be read back by [pydub]. *)
Definition backend_without_aiff_decoder : Backend :=
  {| set_frame_rate := with_frame_rate;
     set_sample_width := with_sample_width;
     set_channels := with_channels;
     encode := fun sound _ _ _ => pcm_wav (with_sample_width sound 2);
     availableVoices := [NARRATOR];
     startSpeakingString := fun _ _ _ text =>
       match text with
       | Some _ => Some {| from_file_view := None; wave_open_view := None |}
       | None => None
       end |}.

(** The sound [convert_to_wav] hands to [export] when called with the
    defaults of its signature, and the file the encoder then writes. *)
Definition converted_sound `{Backend} (s : pydub.AudioSegment) : pydub.AudioSegment :=
  set_channels (set_sample_width (set_frame_rate s 16000) 2) 1.

Definition converted_file `{Backend} (s : pydub.AudioSegment) : File :=
  encode (converted_sound s) "wav" "pcm_s16le" "16k".

(** The contract of [pydub] behind the default call of the converter, for
    the three targets the script uses and no others: resampling to
    16000 Hz gives 16000 frames a second; requantising to two bytes gives
    two-byte samples and keeps the frame rate; mixing down to one channel
    gives one channel and keeps frame rate and sample width; and a mono
    sound at 16000 Hz with two-byte samples, exported as WAVE with codec
    [pcm_s16le], is written as an uncompressed file that reads back with
    these three properties.  Nothing is asked of the duration: resampling
    may lengthen or shorten a sound by a fraction of a frame. *)
Class HonoursDefaultTargets (B : Backend) : Prop := {
  resampled_rate s : pydub.frame_rate (set_frame_rate s 16000) = 16000;
  requantised_width s : pydub.sample_width (set_sample_width s 2) = 2;
  requantised_rate s :
    pydub.frame_rate (set_sample_width s 2) = pydub.frame_rate s;
  mono_channels s : pydub.channels (set_channels s 1) = 1;
  mono_rate s : pydub.frame_rate (set_channels s 1) = pydub.frame_rate s;
  mono_width s : pydub.sample_width (set_channels s 1) = pydub.sample_width s;
  encoded_pcm_s16le s :
    pydub.frame_rate s = 16000 ->
    pydub.sample_width s = 2 ->
    pydub.channels s = 1 ->
    exists s' h,
      encode s "wav" "pcm_s16le" "16k"
      = {| from_file_view := Some s'; wave_open_view := Some h |}
      /\ pydub.frame_rate s' = 16000
      /\ pydub.sample_width s' = 2
      /\ pydub.channels s' = 1
      /\ wave.getcomptype h = "NONE"
}.

(** ** The specification's reading of a profile and of an asset *)

(** The measured properties of an asset, as the specification's data model
    names them: the bit depth is the sample width times eight, the encoding
    tag is PCM exactly for an uncompressed container. *)
Record AudioAsset := {
  durationSeconds : Q;
  sampleRateHz : Z;
  bitDepthBits : Z;
  channelCount : Z;
  encodingTag : string
}.

Definition measure (f : File) : option AudioAsset :=
  match from_file_view f, wave_open_view f with
  | Some s, Some h =>
      Some {| durationSeconds := pydub.duration_seconds s;
              sampleRateHz := pydub.frame_rate s;
              bitDepthBits := pydub.sample_width s * 8;
              channelCount := pydub.channels s;
              encodingTag :=
                if String.eqb (wave.getcomptype h) "NONE" then "PCM" else "Not PCM" |}
  | _, _ => None
  end.

(** The profile in the units of the docstring of [validate_wav]: the
    sampling rate is in kHz, the bit rate is the sample size in bits. *)
Definition profile_sampleRateHz (p : WavFormat) : Z := sampling_rate p * 1000.
Definition profile_bitDepthBits (p : WavFormat) : Z := bit_rate p.

Inductive Field := Duration | SampleRate | BitDepth | Channels | Encoding.

Definition field_matches (p : WavFormat) (a : AudioAsset) (fld : Field) : bool :=
  match fld with
  | Duration => Qle_bool (durationSeconds a) (inject_Z (max_length p))
  | SampleRate => sampleRateHz a =? profile_sampleRateHz p
  | BitDepth => bitDepthBits a =? profile_bitDepthBits p
  | Channels => channelCount a =? channel p
  | Encoding => String.eqb (encodingTag a) (modulation p)
  end.

Definition field_order : list Field :=
  [Duration; SampleRate; BitDepth; Channels; Encoding].

Definition violated_fields (p : WavFormat) (a : AudioAsset) : list Field :=
  List.filter (fun fld => negb (field_matches p a fld)) field_order.

Definition every_field_matches (p : WavFormat) (a : AudioAsset) : bool :=
  forallb (field_matches p a) field_order.

(** The validator with the units put right, after the specification: the
    frame rate is held against the sampling rate in Hz, the sample width
    against the bit depth in bytes.  Everything else is [validate_wav]. *)
Definition validate_wav_unit_corrected (file_name : string) (wav_format : WavFormat) : M bool :=
  let* wav_file := AudioSegment_from_file file_name in
  let expected_frame_rate := sampling_rate wav_format * 1000 in
  let expected_sample_width := (inject_Z (bit_rate wav_format) / 8)%Q in
  let* is_pcm := validate_wav_mod file_name in
  let file_modulation := if is_pcm then "PCM" else "Not PCM" in
  if Qgtb (pydub.duration_seconds wav_file) (inject_Z (max_length wav_format)) then
    print (PrTooLong (pydub.duration_seconds wav_file) (max_length wav_format)) ;;;
    ret false
  else if negb (pydub.frame_rate wav_file =? expected_frame_rate) then
    print (PrWrongBitRate (pydub.frame_rate wav_file) expected_frame_rate) ;;;
    ret false
  else if Qneb (inject_Z (pydub.sample_width wav_file)) expected_sample_width then
    print (PrWrongSamplingRate (pydub.sample_width wav_file) expected_sample_width) ;;;
    ret false
  else if negb (pydub.channels wav_file =? channel wav_format) then
    print (PrWrongChannelCount (pydub.channels wav_file) (channel wav_format)) ;;;
    ret false
  else if negb (String.eqb file_modulation (modulation wav_format)) then
    print (PrWrongModulation file_modulation (modulation wav_format)) ;;;
    ret false
  else
    ret true.

(** ** Worlds for the examples *)

Definition empty_world : World :=
  {| files := ∅; dirs := ∅; stdout := []; calls := [] |}.

Definition world_with (path : string) (f : File) : World :=
  {| files := {[ normpath path := f ]}; dirs := ∅; stdout := []; calls := [] |}.

Definition sound (seconds : Q) (hz width chans : Z) : pydub.AudioSegment :=
  {| pydub.duration_seconds := seconds;
     pydub.frame_rate := hz;
     pydub.sample_width := width;
     pydub.channels := chans |}.

(** What [validate_wav] returns on a file both readers can open: the
    conjunction of its five comparisons. *)
Definition checks_pass (p : WavFormat) (s : pydub.AudioSegment) (h : wave.Wave_read) : bool :=
  Qle_bool (pydub.duration_seconds s) (inject_Z (max_length p))
  && (pydub.frame_rate s =? bit_rate p * 1000)
  && Qeq_bool (inject_Z (pydub.sample_width s)) (inject_Z (sampling_rate p) / 8)
  && (pydub.channels s =? channel p)
  && String.eqb (if String.eqb (wave.getcomptype h) "NONE" then "PCM" else "Not PCM")
                (modulation p).

(** A profile for 8 kHz, 16-bit, mono PCM, written like [WAV_FORMAT]. *)
Definition profile_8kHz_16bit : WavFormat :=
  {| filename := FILE_NAME;
     format := "wav";
     max_length := 10;
     sampling_rate := 8;
     bit_rate := 16;
     channel := 1;
     modulation := "PCM" |}.

(** Four five-second mono PCM files, each alone in the working directory
    as [a.wav]: 8 kHz or 16 kHz, with 16-bit or 8-bit samples. *)
Definition world_8kHz_16bit : World := world_with "a.wav" (pcm_wav (sound 5 8000 2 1)).
Definition world_16kHz_16bit : World := world_with "a.wav" (pcm_wav (sound 5 16000 2 1)).
Definition world_16kHz_8bit : World := world_with "a.wav" (pcm_wav (sound 5 16000 1 1)).
Definition world_8kHz_8bit : World := world_with "a.wav" (pcm_wav (sound 5 8000 1 1)).
(** The 16 kHz, 16-bit file in stereo. *)
Definition world_16kHz_16bit_stereo : World :=
  world_with "a.wav" (pcm_wav (sound 5 16000 2 2)).

(** ** A reader for plain decimal literals *)

(** [float(value)] on an unsigned decimal literal such as ["0.01"]: with a
    mantissa below [2^53] and at most 18 fraction digits (so that the power
    of ten fits a 63-bit integer and is a binary64) the nearest binary64 is
    one correctly rounded division away.  It stands for Python's [float] on
    such strings only and answers [None] on every other string: signs,
    exponents, longer literals and the special values are outside its
    domain. *)
Definition digit_value (c : ascii) : option Z :=
  let n := Z.of_N (N_of_ascii c) - 48 in
  if (0 <=? n) && (n <=? 9) then Some n else None.

Fixpoint read_digits (s : string) (acc : Z) : option Z :=
  match s with
  | EmptyString => Some acc
  | String c rest =>
      match digit_value c with
      | Some d => read_digits rest (10 * acc + d)
      | None => None
      end
  end.

Definition float_of_plain_decimal (s : string) : option float :=
  let parts :=
    match String.index 0 "." s with
    | Some i => (String.substring 0 i s,
                 String.substring (S i) (String.length s - S i) s)
    | None => (s, "")
    end in
  let int_part := fst parts in
  let frac_part := snd parts in
  if (String.length int_part + String.length frac_part =? 0)%nat then None
  else
    match read_digits (int_part ++ frac_part) 0 with
    | Some m =>
        let k := String.length frac_part in
        if (m <? 2 ^ 53) && (k <=? 18)%nat then
          Some (PrimFloat.of_uint63 (Uint63.of_Z m)
                / PrimFloat.of_uint63 (Uint63.of_Z (10 ^ Z.of_nat k)))%float
        else None
    | None => None
    end.

(** ** Command lines for the examples *)

(** [rpwavgen.py -t hello -o DIR], as [parse_args] returns it. *)
Definition say_hello_into (dir : string) : Namespace :=
  {| text := Some "hello";
     input := None;
     convert := false;
     validate := false;
     output := dir;
     gain := 1%float;
     rate := RATE;
     narrator := NARRATOR |}.

(** A world whose only directory besides the working directory is [out]. *)
Definition world_with_out_dir : World :=
  {| files := ∅; dirs := {[ ["out"] ]}; stdout := []; calls := [] |}.

(** A conforming recording that lasts eleven seconds, as [long.wav]. *)
Definition world_long_recording : World :=
  world_with "long.wav" (pcm_wav (sound 11 16000 2 1)).

(** A 44.1 kHz stereo recording of five seconds, as [cd.wav]. *)
Definition world_cd_recording : World :=
  world_with "cd.wav" (pcm_wav (sound 5 44100 2 2)).

(** [rpwavgen.py -i cd.wav -c], as [parse_args] returns it. *)
Definition convert_cd : Namespace :=
  {| text := None;
     input := Some "cd.wav";
     convert := true;
     validate := false;
     output := ".";
     gain := 1%float;
     rate := RATE;
     narrator := NARRATOR |}.

(** The same command line with other speech arguments. *)
Definition with_speech_arguments (pargs : Namespace) (g : float) (r : Z) (n : string)
    : Namespace :=
  {| text := text pargs;
     input := input pargs;
     convert := convert pargs;
     validate := validate pargs;
     output := output pargs;
     gain := g;
     rate := r;
     narrator := n |}.

(** What [validate_wav_mod] prints about a header, in order. *)
Definition header_report (h : wave.Wave_read) : list Printed :=
  [PrSampleWidth (wave.getsampwidth h * 8);
   PrFrameRate (wave.getframerate h);
   PrNumberOfChannels (wave.getnchannels h);
   PrNumberOfFrames (wave.getnframes h);
   PrCompressionType (wave.getcomptype h);
   if String.eqb (wave.getcomptype h) "NONE" then PrLikelyPCM else PrMightNotBePCM].

(** The encoding the validator attributes to a header. *)
Definition file_modulation_of (h : wave.Wave_read) : string :=
  if String.eqb (wave.getcomptype h) "NONE" then "PCM" else "Not PCM".

(** A machine on which the default voice is not installed. *)
Definition backend_without_default_voice : Backend :=
  {| set_frame_rate := with_frame_rate;
     set_sample_width := with_sample_width;
     set_channels := with_channels;
     encode := fun sound _ _ _ => pcm_wav (with_sample_width sound 2);
     availableVoices := ["com.apple.voice.compact.en-GB.Daniel"];
     startSpeakingString := startSpeakingString (Backend := reference_backend) |}.

(** [rpwavgen.py -i a.wav -v], as [parse_args] returns it. *)
Definition validate_a_wav : Namespace :=
  {| text := None;
     input := Some "a.wav";
     convert := false;
     validate := true;
     output := ".";
     gain := 1%float;
     rate := RATE;
     narrator := NARRATOR |}.


(** [rpwavgen.py -i a.wav], with neither [-c] nor [-v]. *)
Definition input_without_action : Namespace :=
  {| text := None;
     input := Some "a.wav";
     convert := false;
     validate := false;
     output := ".";
     gain := 1%float;
     rate := RATE;
     narrator := NARRATOR |}.

(** [rpwavgen.py -i Speech.wav -c], run where a 44.1 kHz stereo
    [Speech.wav] lies. *)
Definition convert_speech_wav : Namespace :=
  {| text := None;
     input := Some "Speech.wav";
     convert := true;
     validate := false;
     output := ".";
     gain := 1%float;
     rate := RATE;
     narrator := NARRATOR |}.

Definition world_cd_speech_wav : World :=
  world_with "Speech.wav" (pcm_wav (sound 5 44100 2 2)).

(** * Properties *)

(** ** Paths *)

Example normpath_dot : normpath "./temp_speech.aiff" = normpath "temp_speech.aiff".
Proof. reflexivity. Qed.

Example normpath_abs : normpath "/tmp/out/Speech.wav" = ["/"; "tmp"; "out"; "Speech.wav"].
Proof. reflexivity. Qed.

(** ** The reference back end honours the contract *)

Lemma reference_backend_honours_targets : HonoursDefaultTargets reference_backend.
Proof.
  split; simpl; intros; try reflexivity.
  eexists _, _. split; [reflexivity|]. cbn. auto.
Qed.


(** ** The validator *)

Ltac case_if :=
  match goal with
  | |- context [if ?b then _ else _] => destruct b eqn:?
  end.

Lemma validate_wav_returns file_name p w f s h :
  files w !! normpath file_name = Some f ->
  from_file_view f = Some s ->
  wave_open_view f = Some h ->
  fst (validate_wav file_name p w) = Returned (checks_pass p s h).
Proof.
  intros Hf Hs Hh.
  unfold validate_wav, AudioSegment_from_file, validate_wav_mod, wave_open,
    read_file, log_call, print, bind, ret, raise, checks_pass, Qgtb, Qneb,
    add_call, add_output.
  cbn [files]. rewrite Hf, Hs. cbn [files]. rewrite Hf, Hh.
  destruct (String.eqb (wave.getcomptype h) "NONE");
    destruct (Qle_bool (pydub.duration_seconds s) (inject_Z (max_length p)));
    destruct (pydub.frame_rate s =? bit_rate p * 1000);
    destruct (Qeq_bool (inject_Z (pydub.sample_width s)) (inject_Z (sampling_rate p) / 8));
    destruct (pydub.channels s =? channel p);
    cbn [fst negb andb]; try reflexivity;
    destruct (String.eqb _ (modulation p)); reflexivity.
Qed.

(** C9: under the default profile the expectations the validator derives
    ([bit_rate * 1000] for the frame rate, [sampling_rate / 8] for the sample
    width) are the numbers the right derivation gives (16000 Hz from the
    sampling rate, 2 bytes from the bit depth), and on every file and in
    every world the validator and the unit-corrected validator do the same
    thing: same result, same output, same final world. *)
Theorem validate_wav_default_profile_units_coincide :
  bit_rate WAV_FORMAT * 1000 = 16000
  /\ profile_sampleRateHz WAV_FORMAT = 16000
  /\ (inject_Z (sampling_rate WAV_FORMAT) / 8 == 2)%Q
  /\ (inject_Z (profile_bitDepthBits WAV_FORMAT) / 8 == 2)%Q
  /\ forall file_name w,
       validate_wav file_name WAV_FORMAT w
       = validate_wav_unit_corrected file_name WAV_FORMAT w.
Proof.
  do 4 (split; [reflexivity |]).
  intros file_name w.
  unfold validate_wav, validate_wav_unit_corrected.
  change (bit_rate WAV_FORMAT * 1000) with (sampling_rate WAV_FORMAT * 1000).
  change (inject_Z (sampling_rate WAV_FORMAT) / 8)%Q
    with (inject_Z (bit_rate WAV_FORMAT) / 8)%Q.
  reflexivity.
Qed.

(** Away from the default profile the two validators part: the 8 kHz,
    16-bit file is refused by the script and accepted once the units are
    put right. *)
Example validators_differ_at_8kHz_16bit :
  fst (validate_wav "a.wav" profile_8kHz_16bit world_8kHz_16bit) = Returned false
  /\ fst (validate_wav_unit_corrected "a.wav" profile_8kHz_16bit world_8kHz_16bit)
     = Returned true.
Proof. split; vm_compute; reflexivity. Qed.

(** C2: the second check holds the frame rate against [bit_rate * 1000] and
    reports it as a wrong bit rate; the third holds the sample width against
    [sampling_rate / 8] and reports it as a wrong sampling rate.  Under the
    8 kHz, 16-bit profile an 8 kHz, 16-bit file fails the second check with
    expectation 16000, and a 16 kHz, 16-bit file passes it and fails the
    third with expectation 8/8. *)
Theorem validate_wav_rate_and_depth_checks_swap_fields :
  fst (validate_wav "a.wav" profile_8kHz_16bit world_8kHz_16bit) = Returned false
  /\ stdout (snd (validate_wav "a.wav" profile_8kHz_16bit world_8kHz_16bit))
     = [PrSampleWidth 16; PrFrameRate 8000; PrNumberOfChannels 1;
        PrNumberOfFrames 40000; PrCompressionType "NONE"; PrLikelyPCM;
        PrWrongBitRate 8000 (bit_rate profile_8kHz_16bit * 1000)]
  /\ fst (validate_wav "a.wav" profile_8kHz_16bit world_16kHz_16bit) = Returned false
  /\ stdout (snd (validate_wav "a.wav" profile_8kHz_16bit world_16kHz_16bit))
     = [PrSampleWidth 16; PrFrameRate 16000; PrNumberOfChannels 1;
        PrNumberOfFrames 80000; PrCompressionType "NONE"; PrLikelyPCM;
        PrWrongSamplingRate 2 (inject_Z (sampling_rate profile_8kHz_16bit) / 8)]
  /\ message_text (PrWrongBitRate 8000 16000) = "File has wrong bit rate"
  /\ message_text (PrWrongSamplingRate 2 1) = "File has wrong sampling rate".
Proof. repeat split; vm_compute; reflexivity. Qed.

(** C3: compliance is not the conjunction of the profile's fields.  Under
    the 8 kHz, 16-bit profile the 8 kHz, 16-bit file matches every field and
    is refused, while the 16 kHz, 8-bit file misses both the sample rate and
    the bit depth and is accepted. *)
Theorem validate_wav_is_not_fieldwise_conjunction :
  (every_field_matches profile_8kHz_16bit <$> measure (pcm_wav (sound 5 8000 2 1)))
    = Some true
  /\ fst (validate_wav "a.wav" profile_8kHz_16bit world_8kHz_16bit) = Returned false
  /\ (violated_fields profile_8kHz_16bit <$> measure (pcm_wav (sound 5 16000 1 1)))
    = Some [SampleRate; BitDepth]
  /\ fst (validate_wav "a.wav" profile_8kHz_16bit world_16kHz_8bit) = Returned true.
Proof. repeat split; vm_compute; reflexivity. Qed.

(** C7: the violation reported is not always the field that is violated.
    Under the default profile a file whose only fault is its 8 kHz sample
    rate is reported with the text for the bit rate; under the 8 kHz, 16-bit
    profile a file whose only fault is its 8-bit depth is reported as a
    frame-rate mismatch of 8000 against 16000. *)
Theorem validate_wav_reports_other_field :
  (violated_fields WAV_FORMAT <$> measure (pcm_wav (sound 5 8000 2 1)))
    = Some [SampleRate]
  /\ fst (validate_wav "a.wav" WAV_FORMAT world_8kHz_16bit) = Returned false
  /\ (message_text <$> last (stdout (snd (validate_wav "a.wav" WAV_FORMAT world_8kHz_16bit))))
     = Some "File has wrong bit rate"
  /\ (violated_fields profile_8kHz_16bit <$> measure (pcm_wav (sound 5 8000 1 1)))
    = Some [BitDepth]
  /\ last (stdout (snd (validate_wav "a.wav" profile_8kHz_16bit world_8kHz_8bit)))
     = Some (PrWrongBitRate 8000 16000).
Proof. repeat split; vm_compute; reflexivity. Qed.

(** ** Argument validation *)

Example float_of_plain_decimal_examples :
  float_of_plain_decimal "0.01" = Some 0.01%float
  /\ float_of_plain_decimal "1.0" = Some 1%float
  /\ float_of_plain_decimal "0.009" = Some 0.009%float
  /\ float_of_plain_decimal "1.01" = Some 1.01%float
  /\ float_of_plain_decimal "0.5" = Some 0.5%float
  /\ float_of_plain_decimal "loud" = None.
Proof. repeat split; vm_compute; reflexivity. Qed.

Lemma check_gain_range py_float value fvalue :
  py_float value = Some fvalue ->
  check_gain py_float value =
    if PrimFloat.leb 0.01%float fvalue && PrimFloat.leb fvalue 1%float
    then Returned fvalue
    else Raised (ArgumentTypeError "Gain must be between 0.01 and 1.0").
Proof. intros Hparse. unfold check_gain. rewrite Hparse. reflexivity. Qed.

(** C8: [check_gain] returns the parsed value exactly when the string
    parses as a float that lies in the closed interval from 0.01 to 1.0;
    a string that is no float and a float outside the interval both raise
    the argument error.  The bounds 0.01 and 1.0 are accepted; 0.009 and
    1.01 are refused, and so are the binary64 just below 0.01, the one just
    above 1.0, and NaN.  [check_gain] has no access to the world: it fails
    before any synthesis or file is touched. *)
Theorem check_gain_accepts_closed_interval
    (py_float : string -> option float) (value : string) :
  (forall f,
      check_gain py_float value = Returned f
      <-> py_float value = Some f
          /\ PrimFloat.leb 0.01%float f = true /\ PrimFloat.leb f 1%float = true)
  /\ (py_float value = None ->
      check_gain py_float value
      = Raised (ArgumentTypeError (value ++ " is an invalid gain value. Use a float.")))
  /\ (forall f,
        py_float value = Some f ->
        PrimFloat.leb 0.01%float f && PrimFloat.leb f 1%float = false ->
        check_gain py_float value
        = Raised (ArgumentTypeError "Gain must be between 0.01 and 1.0"))
  /\ (py_float value = Some 0.01%float -> check_gain py_float value = Returned 0.01%float)
  /\ (py_float value = Some 1%float -> check_gain py_float value = Returned 1%float)
  /\ (py_float value = Some 0.009%float ->
      check_gain py_float value
      = Raised (ArgumentTypeError "Gain must be between 0.01 and 1.0"))
  /\ (py_float value = Some 1.01%float ->
      check_gain py_float value
      = Raised (ArgumentTypeError "Gain must be between 0.01 and 1.0"))
  /\ (py_float value = Some (PrimFloat.next_down 0.01%float) ->
      check_gain py_float value
      = Raised (ArgumentTypeError "Gain must be between 0.01 and 1.0"))
  /\ (py_float value = Some (PrimFloat.next_up 1%float) ->
      check_gain py_float value
      = Raised (ArgumentTypeError "Gain must be between 0.01 and 1.0"))
  /\ (py_float value = Some PrimFloat.nan ->
      check_gain py_float value
      = Raised (ArgumentTypeError "Gain must be between 0.01 and 1.0")).
Proof.
  split.
  { intros f. split.
    - unfold check_gain. destruct (py_float value) as [g|]; [|discriminate].
      destruct (PrimFloat.leb 0.01%float g) eqn:Hlo;
        destruct (PrimFloat.leb g 1%float) eqn:Hhi; cbn [andb];
        intros Hret; try discriminate.
      injection Hret as <-. auto.
    - intros (Hparse & Hlo & Hhi).
      rewrite (check_gain_range _ _ _ Hparse), Hlo, Hhi. reflexivity. }
  split.
  { intros Hparse. unfold check_gain. rewrite Hparse. reflexivity. }
  split.
  { intros f Hparse Hout. rewrite (check_gain_range _ _ _ Hparse), Hout. reflexivity. }
  repeat split; intros Hparse; rewrite (check_gain_range _ _ _ Hparse); reflexivity.
Qed.

(** The four boundary strings and a word, read by the decimal reader. *)
Lemma check_gain_boundary_strings :
  check_gain float_of_plain_decimal "0.01" = Returned 0.01%float
  /\ check_gain float_of_plain_decimal "1.0" = Returned 1%float
  /\ check_gain float_of_plain_decimal "0.009"
     = Raised (ArgumentTypeError "Gain must be between 0.01 and 1.0")
  /\ check_gain float_of_plain_decimal "1.01"
     = Raised (ArgumentTypeError "Gain must be between 0.01 and 1.0")
  /\ check_gain float_of_plain_decimal "loud"
     = Raised (ArgumentTypeError "loud is an invalid gain value. Use a float.").
Proof.
  split.
  { destruct (check_gain_accepts_closed_interval float_of_plain_decimal "0.01")
      as (_ & _ & _ & Hlow & _).
    apply Hlow. vm_compute. reflexivity. }
  split.
  { destruct (check_gain_accepts_closed_interval float_of_plain_decimal "1.0")
      as (_ & _ & _ & _ & Hhigh & _).
    apply Hhigh. vm_compute. reflexivity. }
  split.
  { destruct (check_gain_accepts_closed_interval float_of_plain_decimal "0.009")
      as (_ & _ & _ & _ & _ & Hbelow & _).
    apply Hbelow. vm_compute. reflexivity. }
  split.
  { destruct (check_gain_accepts_closed_interval float_of_plain_decimal "1.01")
      as (_ & _ & _ & _ & _ & _ & Habove & _).
    apply Habove. vm_compute. reflexivity. }
  destruct (check_gain_accepts_closed_interval float_of_plain_decimal "loud")
    as (_ & Hword & _).
  apply Hword. vm_compute. reflexivity.
Defined.

(** ** How each step changes the world *)

Section Steps.
Context {B : Backend}.

Lemma bind_returned {X Y} (m : M X) (k : X -> M Y) w a w1 :
  m w = (Returned a, w1) -> bind m k w = k a w1.
Proof. intros Hm. unfold bind. rewrite Hm. reflexivity. Qed.

Lemma bind_raised {X Y} (m : M X) (k : X -> M Y) w e w1 :
  m w = (Raised e, w1) -> bind m k w = (Raised e, w1).
Proof. intros Hm. unfold bind. rewrite Hm. reflexivity. Qed.

Lemma bind_returned_inv {X Y} (m : M X) (k : X -> M Y) w b w' :
  bind m k w = (Returned b, w') ->
  exists a w1, m w = (Returned a, w1) /\ k a w1 = (Returned b, w').
Proof.
  unfold bind. destruct (m w) as [[a|e] w1]; intros Hk.
  - exists a, w1. split; [reflexivity | exact Hk].
  - discriminate.
Qed.

Lemma from_file_unfold file w :
  AudioSegment_from_file file w =
    match files w !! normpath file with
    | Some f =>
        match from_file_view f with
        | Some s => (Returned s, add_call (FromFile file) w)
        | None => (Raised (CouldntDecodeError file), add_call (FromFile file) w)
        end
    | None => (Raised (FileNotFoundError file), add_call (FromFile file) w)
    end.
Proof.
  unfold AudioSegment_from_file, bind, log_call, read_file, ret, raise.
  cbn [files add_call].
  destruct (files w !! normpath file) as [f|]; [|reflexivity].
  destruct (from_file_view f); reflexivity.
Qed.

Lemma convert_to_wav_unfold input_file output_file codec bitrate chans width hz w :
  convert_to_wav input_file output_file codec bitrate chans width hz w =
    match files w !! normpath input_file with
    | Some f =>
        match from_file_view f with
        | Some s =>
            let w1 := add_call (Export output_file) (add_call (FromFile input_file) w) in
            if dir_exists w (dirname (normpath output_file)) then
              (Returned tt,
               set_files
                 (<[normpath output_file :=
                      encode (set_channels (set_sample_width (set_frame_rate s hz) width) chans)
                             "wav" codec bitrate]> (files w)) w1)
            else (Raised (FileNotFoundError output_file), w1)
        | None => (Raised (CouldntDecodeError input_file), add_call (FromFile input_file) w)
        end
    | None => (Raised (FileNotFoundError input_file), add_call (FromFile input_file) w)
    end.
Proof.
  unfold convert_to_wav, bind. rewrite from_file_unfold.
  destruct (files w !! normpath input_file) as [f|]; [|reflexivity].
  destruct (from_file_view f) as [s|]; [|reflexivity].
  unfold AudioSegment_export, bind, log_call, write_file, dir_exists.
  cbn [dirs add_call files].
  destruct (_ || _); reflexivity.
Qed.

Lemma remove_file_unfold file_name w :
  remove_file file_name w =
    match files w !! normpath file_name with
    | Some _ =>
        (Returned tt,
         set_files (delete (normpath file_name) (files w)) (add_call (OsRemove file_name) w))
    | None =>
        (Raised (OSError ("Unable to remove file: " ++ file_name
                          ++ " (No such file or directory: " ++ file_name ++ ")")),
         add_call (OsRemove file_name) w)
    end.
Proof.
  unfold remove_file, try_except, os_remove, bind, log_call, raise.
  cbn [files add_call].
  destruct (files w !! normpath file_name); reflexivity.
Qed.

Lemma text_to_speech_unfold text output_file narrator gain rate w :
  text_to_speech text output_file narrator gain rate w =
    if negb (existsb (String.eqb narrator) availableVoices) then
      (Raised (ValueError ("Invalid narrator: " ++ narrator)), w)
    else
      let volume := match gain with
                    | Some g => if truthy_float g then Some g else None
                    | None => None
                    end in
      let speech_rate := match rate with
                         | Some r => if truthy_int r then Some r else None
                         | None => None
                         end in
      let w1 := add_call (Synthesize output_file) w in
      (Returned tt,
       match startSpeakingString narrator volume speech_rate text with
       | Some f =>
           if dir_exists w (dirname (normpath output_file))
           then set_files (<[normpath output_file := f]> (files w)) w1
           else w1
       | None => w1
       end).
Proof.
  unfold text_to_speech, list_voices.
  destruct (negb _); [reflexivity|].
  unfold speak_to_URL, bind, log_call, try_except, write_file, ret, dir_exists.
  cbn [dirs add_call files].
  destruct (startSpeakingString _ _ _ _); [|reflexivity].
  destruct (_ || _); reflexivity.
Qed.

Lemma validate_wav_mod_world file_name w :
  files (snd (validate_wav_mod file_name w)) = files w
  /\ exists printed,
       stdout (snd (validate_wav_mod file_name w)) = (stdout w ++ printed)%list
       /\ calls (snd (validate_wav_mod file_name w)) = (calls w ++ [WaveOpen file_name])%list.
Proof.
  unfold validate_wav_mod, wave_open, bind, log_call, read_file, print, ret, raise.
  cbn [files add_call].
  destruct (files w !! normpath file_name) as [f|];
    [destruct (wave_open_view f) as [h|]|].
  - destruct (String.eqb (wave.getcomptype h) "NONE"); cbn;
      (split; [reflexivity|]); eexists; rewrite <- !app_assoc; split; reflexivity.
  - cbn. split; [reflexivity|]. exists []. rewrite app_nil_r. split; reflexivity.
  - cbn. split; [reflexivity|]. exists []. rewrite app_nil_r. split; reflexivity.
Qed.

Lemma validate_wav_files file_name p w :
  files (snd (validate_wav file_name p w)) = files w.
Proof.
  unfold validate_wav, bind. rewrite from_file_unfold.
  destruct (files w !! normpath file_name) as [f|]; [|reflexivity].
  destruct (from_file_view f) as [s|]; [|reflexivity].
  pose proof (validate_wav_mod_world file_name (add_call (FromFile file_name) w)) as [Hfiles _].
  destruct (validate_wav_mod file_name _) as [[pcm|e] w1]; cbn [snd] in Hfiles;
    [|exact Hfiles].
  unfold print, ret.
  repeat (case_if; [exact Hfiles|]). exact Hfiles.
Qed.

Lemma validate_wav_calls file_name p w b w' :
  validate_wav file_name p w = (Returned b, w') ->
  calls w' = (calls w ++ [FromFile file_name; WaveOpen file_name])%list.
Proof.
  unfold validate_wav, bind. rewrite from_file_unfold.
  destruct (files w !! normpath file_name) as [f|]; [|discriminate].
  destruct (from_file_view f) as [s|]; [|discriminate].
  pose proof (validate_wav_mod_world file_name (add_call (FromFile file_name) w))
    as (_ & _ & _ & Hcalls).
  destruct (validate_wav_mod file_name _) as [[pcm|e] w1]; [|discriminate].
  cbn [snd calls add_call] in Hcalls. rewrite <- app_assoc in Hcalls.
  unfold print, ret.
  repeat (case_if; [intros [= _ <-]; exact Hcalls|]).
  intros [= _ <-]. exact Hcalls.
Qed.

Lemma validate_wav_calls_raised file_name p w e w' :
  validate_wav file_name p w = (Raised e, w') ->
  exists l, calls w' = (calls w ++ l)%list.
Proof.
  unfold validate_wav, bind. rewrite from_file_unfold.
  destruct (files w !! normpath file_name) as [f|];
    [destruct (from_file_view f) as [s|]|];
    try (intros [= _ <-]; eexists; reflexivity).
  pose proof (validate_wav_mod_world file_name (add_call (FromFile file_name) w))
    as (_ & _ & _ & Hcalls).
  destruct (validate_wav_mod file_name _) as [[pcm|e1] w1].
  - unfold print, ret. repeat (case_if; [discriminate|]). discriminate.
  - intros [= _ <-]. cbn [snd calls add_call] in Hcalls.
    rewrite <- app_assoc in Hcalls. eexists. exact Hcalls.
Qed.

End Steps.

(** ** Joining a directory and a file name *)

Lemma split_slash_join acc dir name :
  split_slash acc (dir ++ String "/" name)
  = (split_slash acc dir ++ split_slash "" name)%list.
Proof.
  revert acc. induction dir as [|c dir IH]; intros acc.
  - reflexivity.
  - change (String c dir ++ String "/" name) with (String c (dir ++ String "/" name)).
    cbn [split_slash]. destruct (Ascii.eqb c "/").
    + rewrite IH. reflexivity.
    + apply IH.
Qed.

Lemma normpath_join dir name :
  dir <> "" ->
  normpath (dir ++ "/" ++ name)
  = (normpath dir ++ List.filter keep_component (split_slash "" name))%list.
Proof.
  intros Hdir. change ("/" ++ name) with (String "/" name).
  unfold normpath. rewrite split_slash_join, List.filter_app.
  destruct dir as [|c dir]; [congruence|].
  change (isabs (String c dir ++ String "/" name)) with (Ascii.eqb c "/").
  change (isabs (String c dir)) with (Ascii.eqb c "/").
  destruct (Ascii.eqb c "/"); reflexivity.
Qed.

(** The path handed to the cleanup names the file the synthesiser wrote
    only when the output directory is the working directory; the converted
    file then sits next to it under its own name. *)
Lemma cleanup_path_is_synthesis_path dir :
  normpath (dir ++ "/" ++ "temp_speech.aiff") = normpath "temp_speech.aiff" ->
  normpath dir = [] /\ normpath (dir ++ "/" ++ FILE_NAME) = ["Speech.wav"].
Proof.
  destruct (String.eqb_spec dir "") as [-> | Hdir]; [discriminate|].
  rewrite !normpath_join by exact Hdir.
  change (List.filter keep_component (split_slash "" "temp_speech.aiff"))
    with ["temp_speech.aiff"].
  change (normpath "temp_speech.aiff") with ([] ++ ["temp_speech.aiff"])%list.
  intros Heq. apply app_inv_tail in Heq. rewrite Heq. split; reflexivity.
Qed.

Section StepsCalls.
Context {B : Backend}.

Lemma text_to_speech_calls text output_file narrator gain rate w r w1 :
  text_to_speech text output_file narrator gain rate w = (r, w1) ->
  r = Returned tt ->
  calls w1 = (calls w ++ [Synthesize output_file])%list.
Proof.
  rewrite text_to_speech_unfold.
  destruct (negb _); [intros [= <- _]; discriminate|].
  cbv zeta. intros [= _ <-] _.
  destruct (startSpeakingString _ _ _ _); [|reflexivity].
  destruct (dir_exists _ _); reflexivity.
Qed.

Lemma convert_to_wav_calls input_file output_file codec bitrate chans width hz w w1 :
  convert_to_wav input_file output_file codec bitrate chans width hz w = (Returned tt, w1) ->
  calls w1 = (calls w ++ [FromFile input_file; Export output_file])%list.
Proof.
  rewrite convert_to_wav_unfold.
  destruct (files w !! normpath input_file) as [f|]; [|discriminate].
  destruct (from_file_view f) as [s|]; [|discriminate].
  cbv zeta. destruct (dir_exists _ _); [|discriminate].
  intros [= <-]. cbn [calls set_files add_call]. rewrite <- app_assoc. reflexivity.
Qed.

Lemma remove_file_calls file_name w w1 :
  remove_file file_name w = (Returned tt, w1) ->
  calls w1 = (calls w ++ [OsRemove file_name])%list.
Proof.
  rewrite remove_file_unfold.
  destruct (files w !! normpath file_name); [|discriminate].
  intros [= <-]. reflexivity.
Qed.

End StepsCalls.

(** ** The Generate workflow *)

Section Generate.
Context {B : Backend}.

Lemma then_ret_tt_files {X} (m : M X) w :
  files (snd ((m ;;; ret tt) w)) = files (snd (m w)).
Proof. unfold bind, ret. destruct (m w) as [[a|e] w1]; reflexivity. Qed.

(** C4, as the script has it: let the output directory be the working
    directory, so that the cleanup is handed the path the synthesiser wrote
    to, and let synthesis return.  If the conversion returns, the cleanup
    runs and the temporary file is gone when the workflow ends, whatever the
    validation then does.  If the conversion raises, the workflow ends
    there with that exception: nothing is removed and the files are as the
    synthesis left them. *)
Theorem generate_wav_cleanup_follows_conversion pargs wav_format w w1 :
  normpath (output pargs ++ "/" ++ "temp_speech.aiff") = normpath "temp_speech.aiff" ->
  text_to_speech (text pargs) "temp_speech.aiff" NARRATOR
    (Some (gain pargs)) (Some (rate pargs)) w = (Returned tt, w1) ->
  (forall w2,
      convert_to_wav_default "temp_speech.aiff" (output pargs ++ "/" ++ FILE_NAME) w1
        = (Returned tt, w2) ->
      exists_file (snd (generate_wav pargs wav_format w)) "temp_speech.aiff" = false
      /\ In (OsRemove (output pargs ++ "/" ++ "temp_speech.aiff"))
            (calls (snd (generate_wav pargs wav_format w))))
  /\ (forall e w2,
      convert_to_wav_default "temp_speech.aiff" (output pargs ++ "/" ++ FILE_NAME) w1
        = (Raised e, w2) ->
      generate_wav pargs wav_format w = (Raised e, w2)
      /\ files w2 = files w1
      /\ exists_file w2 "temp_speech.aiff" = exists_file w1 "temp_speech.aiff").
Proof.
  intros Hpath Hsynth.
  destruct (cleanup_path_is_synthesis_path _ Hpath) as [_ Hout].
  split.
  - intros w2 Hconv.
    unfold generate_wav. cbv zeta.
    rewrite (bind_returned _ _ _ _ _ Hsynth), (bind_returned _ _ _ _ _ Hconv).
    unfold convert_to_wav_default in Hconv. rewrite convert_to_wav_unfold in Hconv.
    destruct (files w1 !! normpath "temp_speech.aiff") as [f|] eqn:Htemp; [|discriminate].
    destruct (from_file_view f) as [s|]; [|discriminate].
    cbv zeta in Hconv. destruct (dir_exists _ _); [|discriminate].
    injection Hconv as <-.
    assert (Hstill : files (set_files
              (<[normpath (output pargs ++ "/" ++ FILE_NAME) :=
                   encode (set_channels (set_sample_width (set_frame_rate s 16000) 2) 1)
                     "wav" "pcm_s16le" "16k"]> (files w1))
              (add_call (Export (output pargs ++ "/" ++ FILE_NAME))
                 (add_call (FromFile "temp_speech.aiff") w1)))
            !! normpath (output pargs ++ "/" ++ "temp_speech.aiff") = Some f).
    { cbn [files set_files]. rewrite Hpath, Hout.
      rewrite lookup_insert_ne by discriminate. exact Htemp. }
    set (w2 := set_files _ _) in *.
    pose proof (remove_file_unfold (output pargs ++ "/" ++ "temp_speech.aiff") w2) as Hrm.
    rewrite Hstill in Hrm.
    rewrite (bind_returned _ _ _ _ _ Hrm).
    set (w3 := set_files _ (add_call _ w2)) in *.
    split.
    + unfold exists_file.
      rewrite then_ret_tt_files, validate_wav_files.
      subst w3. cbn [files set_files]. rewrite <- Hpath, lookup_delete_eq.
      apply bool_decide_eq_false. intros [? [=]].
    + assert (Hin : In (OsRemove (output pargs ++ "/" ++ "temp_speech.aiff")) (calls w3)).
      { subst w3. cbn [calls set_files add_call]. apply in_or_app. right. left. reflexivity. }
      unfold bind, ret.
      destruct (validate_wav _ _ w3) as [[b|e] w4] eqn:Hval; cbn [snd].
      * rewrite (validate_wav_calls _ _ _ _ _ Hval). apply in_or_app. left. exact Hin.
      * pose proof (validate_wav_calls_raised _ _ _ _ _ Hval) as [l ->].
        apply in_or_app. left. exact Hin.
  - intros e w2 Hconv.
    split.
    + unfold generate_wav. cbv zeta.
      rewrite (bind_returned _ _ _ _ _ Hsynth). apply bind_raised. exact Hconv.
    + unfold convert_to_wav_default in Hconv. rewrite convert_to_wav_unfold in Hconv.
      assert (Hfiles : files w2 = files w1).
      { destruct (files w1 !! normpath "temp_speech.aiff") as [f|];
          [destruct (from_file_view f) as [s|]|].
        - cbv zeta in Hconv. destruct (dir_exists _ _); [discriminate|].
          injection Hconv as _ <-. reflexivity.
        - injection Hconv as _ <-. reflexivity.
        - injection Hconv as _ <-. reflexivity. }
      split; [exact Hfiles|]. unfold exists_file. rewrite Hfiles. reflexivity.
Qed.

End Generate.

(** With [-o .] and the reference back end the temporary file is gone
    at the end of the run. *)
Lemma generate_wav_cleanup_in_working_directory :
  exists_file
    (snd (generate_wav (B:=reference_backend) (say_hello_into ".") WAV_FORMAT empty_world))
    "temp_speech.aiff" = false
  /\ In (OsRemove "./temp_speech.aiff")
        (calls (snd (generate_wav (B:=reference_backend) (say_hello_into ".")
                       WAV_FORMAT empty_world))).
Proof.
  eapply (generate_wav_cleanup_follows_conversion (B:=reference_backend)
            (say_hello_into ".") WAV_FORMAT empty_world
            (snd (text_to_speech (B:=reference_backend) (Some "hello") "temp_speech.aiff"
                    NARRATOR (Some 1%float) (Some RATE) empty_world))).
  - reflexivity.
  - vm_compute. reflexivity.
  - vm_compute. reflexivity.
Defined.

(** C4, as the claim has it, fails: a run in which the conversion raises
    ends with the temporary file still there and no cleanup attempted.  With
    [-o .] this happens when the synthesised file cannot be decoded; with
    [-o missing] it happens because the output directory does not exist. *)
Lemma generate_wav_leaves_artifact_when_conversion_fails :
  fst (generate_wav (B:=backend_without_aiff_decoder) (say_hello_into ".")
         WAV_FORMAT empty_world)
  = Raised (CouldntDecodeError "temp_speech.aiff")
  /\ exists_file
       (snd (generate_wav (B:=backend_without_aiff_decoder) (say_hello_into ".")
               WAV_FORMAT empty_world))
       "temp_speech.aiff" = true
  /\ calls (snd (generate_wav (B:=backend_without_aiff_decoder) (say_hello_into ".")
                   WAV_FORMAT empty_world))
     = [Synthesize "temp_speech.aiff"; FromFile "temp_speech.aiff"]
  /\ fst (generate_wav (B:=reference_backend) (say_hello_into "missing")
            WAV_FORMAT empty_world)
     = Raised (FileNotFoundError "missing/Speech.wav")
  /\ exists_file
       (snd (generate_wav (B:=reference_backend) (say_hello_into "missing")
               WAV_FORMAT empty_world))
       "temp_speech.aiff" = true
  /\ calls (snd (generate_wav (B:=reference_backend) (say_hello_into "missing")
                   WAV_FORMAT empty_world))
     = [Synthesize "temp_speech.aiff"; FromFile "temp_speech.aiff";
        Export "missing/Speech.wav"].
Proof. repeat split; vm_compute; reflexivity. Qed.

(** C5: with [-o out] the synthesiser writes [temp_speech.aiff] into the
    working directory and the cleanup is handed [out/temp_speech.aiff], a
    different path.  The removal raises, the validation is never reached,
    and the temporary file stays where it was written. *)
Theorem generate_wav_cleanup_path_is_not_synthesis_path :
  calls (snd (generate_wav (B:=reference_backend) (say_hello_into "out")
                WAV_FORMAT world_with_out_dir))
  = [Synthesize "temp_speech.aiff"; FromFile "temp_speech.aiff";
     Export "out/Speech.wav"; OsRemove "out/temp_speech.aiff"]
  /\ normpath "out/temp_speech.aiff" <> normpath "temp_speech.aiff"
  /\ dirname (normpath "temp_speech.aiff") <> normpath (output (say_hello_into "out"))
  /\ fst (generate_wav (B:=reference_backend) (say_hello_into "out")
            WAV_FORMAT world_with_out_dir)
     = Raised (OSError ("Unable to remove file: out/temp_speech.aiff "
                        ++ "(No such file or directory: out/temp_speech.aiff)"))
  /\ exists_file
       (snd (generate_wav (B:=reference_backend) (say_hello_into "out")
               WAV_FORMAT world_with_out_dir))
       "temp_speech.aiff" = true
  /\ exists_file
       (snd (generate_wav (B:=reference_backend) (say_hello_into "out")
               WAV_FORMAT world_with_out_dir))
       "out/Speech.wav" = true.
Proof.
  split; [vm_compute; reflexivity|].
  split; [vm_compute; discriminate|].
  split; [vm_compute; discriminate|].
  repeat split; vm_compute; reflexivity.
Qed.

Section GenerateOrder.
Context {B : Backend}.

(** C6, as the script has it: a run of the Generate workflow that returns
    has synthesised, then converted, then run the cleanup, and only then
    validated the output.  When the validation starts, the cleanup has
    removed the file at the path it was given, the name of the temporary
    file under the output directory.  When the output directory is the
    working directory that file is the synthesised one, which is then gone
    before the validation starts and still gone when the run ends. *)
Theorem generate_wav_call_order pargs wav_format w w' :
  generate_wav pargs wav_format w = (Returned tt, w') ->
  calls w'
  = (calls w ++
     [Synthesize "temp_speech.aiff";
      FromFile "temp_speech.aiff";
      Export (output pargs ++ "/" ++ FILE_NAME);
      OsRemove (output pargs ++ "/" ++ "temp_speech.aiff");
      FromFile (output pargs ++ "/" ++ FILE_NAME);
      WaveOpen (output pargs ++ "/" ++ FILE_NAME)])%list
  /\ exists before_validation verdict,
       validate_wav (output pargs ++ "/" ++ FILE_NAME) WAV_FORMAT before_validation
       = (Returned verdict, w')
       /\ calls before_validation
          = (calls w ++
             [Synthesize "temp_speech.aiff";
              FromFile "temp_speech.aiff";
              Export (output pargs ++ "/" ++ FILE_NAME);
              OsRemove (output pargs ++ "/" ++ "temp_speech.aiff")])%list
       /\ exists_file before_validation (output pargs ++ "/" ++ "temp_speech.aiff") = false
       /\ (normpath (output pargs ++ "/" ++ "temp_speech.aiff")
           = normpath "temp_speech.aiff" ->
           exists_file before_validation "temp_speech.aiff" = false
           /\ exists_file w' "temp_speech.aiff" = false).
Proof.
  unfold generate_wav. cbv zeta. intros Hrun.
  apply bind_returned_inv in Hrun as ([] & w1 & Hsynth & Hrun).
  apply bind_returned_inv in Hrun as ([] & w2 & Hconv & Hrun).
  apply bind_returned_inv in Hrun as ([] & w3 & Hrm & Hrun).
  apply bind_returned_inv in Hrun as (ok & w4 & Hval & Hret).
  injection Hret as <-.
  assert (Hcalls3 : calls w3
                    = (calls w ++
                       [Synthesize "temp_speech.aiff";
                        FromFile "temp_speech.aiff";
                        Export (output pargs ++ "/" ++ FILE_NAME);
                        OsRemove (output pargs ++ "/" ++ "temp_speech.aiff")])%list).
  { rewrite (remove_file_calls _ _ _ Hrm),
      (convert_to_wav_calls _ _ _ _ _ _ _ _ _ Hconv),
      (text_to_speech_calls _ _ _ _ _ _ _ _ Hsynth eq_refl).
    rewrite <- !app_assoc. reflexivity. }
  assert (Hgone : files w3 !! normpath (output pargs ++ "/" ++ "temp_speech.aiff") = None).
  { rewrite remove_file_unfold in Hrm.
    destruct (files w2 !! normpath (output pargs ++ "/" ++ "temp_speech.aiff"));
      [|discriminate].
    injection Hrm as <-. cbn [files set_files]. apply lookup_delete_eq. }
  split.
  - rewrite (validate_wav_calls _ _ _ _ _ Hval), Hcalls3.
    rewrite <- !app_assoc. reflexivity.
  - exists w3, ok. split; [exact Hval|]. split; [exact Hcalls3|].
    assert (Hfiles : files w4 = files w3).
    { pose proof (validate_wav_files (output pargs ++ "/" ++ FILE_NAME) WAV_FORMAT w3)
        as Hsame.
      rewrite Hval in Hsame. exact Hsame. }
    unfold exists_file. rewrite Hfiles. split.
    + rewrite Hgone. apply bool_decide_eq_false. intros [? [=]].
    + intros Hcwd. rewrite <- Hcwd, Hgone.
      split; apply bool_decide_eq_false; intros [? [=]].
Qed.

End GenerateOrder.

(** A run with [-o .] that returns, and its calls in order. *)
Lemma generate_wav_call_order_in_working_directory :
  calls (snd (generate_wav (B:=reference_backend) (say_hello_into ".")
                WAV_FORMAT empty_world))
  = [Synthesize "temp_speech.aiff";
     FromFile "temp_speech.aiff";
     Export "./Speech.wav";
     OsRemove "./temp_speech.aiff";
     FromFile "./Speech.wav";
     WaveOpen "./Speech.wav"].
Proof.
  refine (proj1 (generate_wav_call_order (B:=reference_backend) (say_hello_into ".")
                   WAV_FORMAT empty_world _ _)).
  vm_compute. reflexivity.
Defined.

(** C6, as the claim has it, fails: in a run that returns, the temporary
    file is removed before the output is opened for validation, and is
    already gone when the validation starts. *)
Lemma generate_wav_removes_before_validating :
  fst (generate_wav (B:=reference_backend) (say_hello_into ".") WAV_FORMAT empty_world)
  = Returned tt
  /\ calls (snd (generate_wav (B:=reference_backend) (say_hello_into ".")
                   WAV_FORMAT empty_world))
     = [Synthesize "temp_speech.aiff";
        FromFile "temp_speech.aiff";
        Export "./Speech.wav";
        OsRemove "./temp_speech.aiff";
        FromFile "./Speech.wav";
        WaveOpen "./Speech.wav"]
  /\ stdout (snd (generate_wav (B:=reference_backend) (say_hello_into ".")
                    WAV_FORMAT empty_world))
     = [PrSampleWidth 16; PrFrameRate 16000; PrNumberOfChannels 1;
        PrNumberOfFrames 8000; PrCompressionType "NONE"; PrLikelyPCM].
Proof. repeat split; vm_compute; reflexivity. Qed.

(** ** The converter *)

(** The five comparisons pass on a mono sound at 16000 Hz with two-byte
    samples, uncompressed, under any profile that asks for these and allows
    its length. *)
Lemma checks_pass_targets p s h :
  bit_rate p = 16 ->
  sampling_rate p = 16 ->
  channel p = 1 ->
  modulation p = "PCM" ->
  (pydub.duration_seconds s <= inject_Z (max_length p))%Q ->
  pydub.frame_rate s = 16000 ->
  pydub.sample_width s = 2 ->
  pydub.channels s = 1 ->
  wave.getcomptype h = "NONE" ->
  checks_pass p s h = true.
Proof.
  intros Hbits Hkhz Hmono Hpcm Hshort Hrate Hwidth Hchans Hcomp.
  unfold checks_pass.
  rewrite Hbits, Hkhz, Hmono, Hpcm, Hrate, Hwidth, Hchans, Hcomp.
  apply Qle_bool_iff in Hshort. rewrite Hshort. reflexivity.
Qed.

Section Converter.
Context {B : Backend}.

(** The world the default call of the converter leaves when the input
    decodes and the directory of the output exists. *)
Lemma convert_to_wav_default_world input_file output_file w f s :
  files w !! normpath input_file = Some f ->
  from_file_view f = Some s ->
  dir_exists w (dirname (normpath output_file)) = true ->
  convert_to_wav_default input_file output_file w
  = (Returned tt,
     set_files (<[normpath output_file := converted_file s]> (files w))
       (add_call (Export output_file) (add_call (FromFile input_file) w))).
Proof.
  intros Hin Hdec Hdir.
  unfold convert_to_wav_default. rewrite convert_to_wav_unfold, Hin, Hdec.
  cbv zeta. rewrite Hdir. reflexivity.
Qed.

Lemma converted_file_format {L : HonoursDefaultTargets B} s :
  exists s' h,
    converted_file s = {| from_file_view := Some s'; wave_open_view := Some h |}
    /\ pydub.frame_rate s' = 16000
    /\ pydub.sample_width s' = 2
    /\ pydub.channels s' = 1
    /\ wave.getcomptype h = "NONE".
Proof.
  unfold converted_file. apply encoded_pcm_s16le; unfold converted_sound.
  - rewrite mono_rate, requantised_rate. apply resampled_rate.
  - rewrite mono_width. apply requantised_width.
  - apply mono_channels.
Qed.

(** C1, as the script has it: the converter takes no profile and always
    aims at 16000 Hz, two-byte samples, one channel and [pcm_s16le], and it
    does not cut its input to a length.  Let the input decode, let the
    output path be a file's place in an existing directory, and let the
    back end honour the three targets.  Then for every profile that asks
    for these targets, converting and then validating the output against
    it returns [True] as soon as the converted file, read back, lasts no
    longer than the profile allows. *)
Theorem convert_then_validate_matching_profile
    {L : HonoursDefaultTargets B} input_file output_file p w f s s' :
  files w !! normpath input_file = Some f ->
  from_file_view f = Some s ->
  dir_exists w (dirname (normpath output_file)) = true ->
  dir_exists w (normpath output_file) = false ->
  bit_rate p = 16 ->
  sampling_rate p = 16 ->
  channel p = 1 ->
  modulation p = "PCM" ->
  from_file_view (converted_file s) = Some s' ->
  (pydub.duration_seconds s' <= inject_Z (max_length p))%Q ->
  fst ((convert_to_wav_default input_file output_file ;;;
        validate_wav output_file p) w)
  = Returned true.
Proof.
  intros Hin Hdec Hdir _ Hbits Hkhz Hmono Hpcm Hreads Hshort.
  rewrite (bind_returned _ _ _ _ _ (convert_to_wav_default_world _ _ _ _ _ Hin Hdec Hdir)).
  destruct (converted_file_format s) as (s0 & h & Hfile & Hrate & Hwidth & Hchans & Hcomp).
  rewrite Hfile in Hreads. injection Hreads as ->.
  match goal with
  | |- fst (validate_wav _ _ ?x) = _ => set (w1 := x)
  end.
  assert (Hout : files w1 !! normpath output_file
                 = Some {| from_file_view := Some s'; wave_open_view := Some h |}).
  { subst w1. cbn [files set_files]. rewrite lookup_insert_eq, Hfile. reflexivity. }
  rewrite (validate_wav_returns _ p _ _ s' h Hout eq_refl eq_refl).
  f_equal. apply checks_pass_targets; assumption.
Qed.

(** C10: in the ConvertOnly workflow the run does not depend on the gain,
    the rate or the narrator: replacing them changes neither the outcome nor
    the final world.  The run is the conversion with the fixed targets of
    the signature: when the input decodes and the output path is a file's
    place in an existing directory it returns and leaves there the file
    encoded, with codec [pcm_s16le], for the sound resampled to 16000 Hz,
    requantised to two bytes and mixed down to one channel; with a back end
    that honours these targets that file is uncompressed with 16000 frames
    a second, two-byte samples and one channel. *)
Theorem convert_only_ignores_speech_arguments pargs input_file g r n w :
  truthy_str (text pargs) = false ->
  input pargs = Some input_file ->
  input_file <> "" ->
  validate pargs = false ->
  convert pargs = true ->
  main (with_speech_arguments pargs g r n) w = main pargs w
  /\ main pargs w
     = convert_to_wav input_file (output pargs ++ "/" ++ FILE_NAME)
         "pcm_s16le" "16k" 1 2 16000 w
  /\ (forall f s,
        files w !! normpath input_file = Some f ->
        from_file_view f = Some s ->
        dir_exists w (dirname (normpath (output pargs ++ "/" ++ FILE_NAME))) = true ->
        dir_exists w (normpath (output pargs ++ "/" ++ FILE_NAME)) = false ->
        fst (main pargs w) = Returned tt
        /\ files (snd (main pargs w)) !! normpath (output pargs ++ "/" ++ FILE_NAME)
           = Some (encode (set_channels (set_sample_width (set_frame_rate s 16000) 2) 1)
                     "wav" "pcm_s16le" "16k")
        /\ (HonoursDefaultTargets B ->
            exists s' h,
              files (snd (main pargs w)) !! normpath (output pargs ++ "/" ++ FILE_NAME)
              = Some {| from_file_view := Some s'; wave_open_view := Some h |}
              /\ pydub.frame_rate s' = 16000
              /\ pydub.sample_width s' = 2
              /\ pydub.channels s' = 1
              /\ wave.getcomptype h = "NONE")).
Proof.
  intros Htext Hinput Hname Hval Hconv.
  assert (Hmain : main pargs w
                  = convert_to_wav_default input_file (output pargs ++ "/" ++ FILE_NAME) w).
  { unfold main. rewrite Htext, Hinput, Hval, Hconv. cbn [truthy_str].
    destruct (String.eqb_spec input_file "") as [|_]; [contradiction|]. reflexivity. }
  split; [|split].
  - rewrite Hmain. unfold main, with_speech_arguments.
    cbn [text input validate convert output]. rewrite Htext, Hinput, Hval, Hconv.
    cbn [truthy_str].
    destruct (String.eqb_spec input_file "") as [|_]; [contradiction|]. reflexivity.
  - exact Hmain.
  - intros f s Hin Hdec Hdir _. rewrite Hmain.
    rewrite (convert_to_wav_default_world _ _ _ _ _ Hin Hdec Hdir).
    cbn [fst snd files set_files]. rewrite lookup_insert_eq.
    split; [reflexivity|]. split; [reflexivity|].
    intros L. destruct (converted_file_format s) as (s' & h & Hfile & Hformat).
    exists s', h. split; [f_equal; exact Hfile | exact Hformat].
Qed.

End Converter.

(** Converting the five-second 44.1 kHz stereo recording and validating
    the result against the default profile. *)
Lemma convert_then_validate_cd_recording :
  fst ((convert_to_wav_default (B:=reference_backend) "cd.wav" "./Speech.wav" ;;;
        validate_wav "./Speech.wav" WAV_FORMAT) world_cd_recording)
  = Returned true.
Proof.
  eapply (convert_then_validate_matching_profile (B:=reference_backend)
            (L:=reference_backend_honours_targets) "cd.wav" "./Speech.wav" WAV_FORMAT
            world_cd_recording (pcm_wav (sound 5 44100 2 2)) (sound 5 44100 2 2)
            (sound 5 16000 2 1)).
  - vm_compute. reflexivity.
  - reflexivity.
  - reflexivity.
  - reflexivity.
  - reflexivity.
  - reflexivity.
  - reflexivity.
  - reflexivity.
  - reflexivity.
  - vm_compute. discriminate.
Defined.

(** C1, as the claim has it, fails twice over.  A conforming recording of
    eleven seconds is converted without being shortened and then refused as
    too long, and an output converted for validation against the 8 kHz,
    16-bit profile is still at 16000 Hz. *)
Lemma convert_then_validate_can_refuse :
  fst ((convert_to_wav_default (B:=reference_backend) "long.wav" "./Speech.wav" ;;;
        validate_wav "./Speech.wav" WAV_FORMAT) world_long_recording)
  = Returned false
  /\ last (stdout (snd ((convert_to_wav_default (B:=reference_backend)
                           "long.wav" "./Speech.wav" ;;;
                         validate_wav "./Speech.wav" WAV_FORMAT) world_long_recording)))
     = Some (PrTooLong 11 10)
  /\ fst ((convert_to_wav_default (B:=reference_backend) "cd.wav" "./Speech.wav" ;;;
           validate_wav_unit_corrected "./Speech.wav" profile_8kHz_16bit)
            world_cd_recording)
     = Returned false
  /\ fst ((convert_to_wav_default (B:=reference_backend) "cd.wav" "./Speech.wav" ;;;
           validate_wav "./Speech.wav" profile_8kHz_16bit) world_cd_recording)
     = Returned false.
Proof. repeat split; vm_compute; reflexivity. Qed.

(** The ConvertOnly run on the 44.1 kHz stereo recording, with the default
    speech arguments and with others. *)
Lemma convert_only_cd_recording :
  main (B:=reference_backend)
    (with_speech_arguments convert_cd 0.5%float 120 "com.apple.voice.compact.en-GB.Daniel")
    world_cd_recording
  = main (B:=reference_backend) convert_cd world_cd_recording
  /\ fst (main (B:=reference_backend) convert_cd world_cd_recording) = Returned tt.
Proof.
  destruct (convert_only_ignores_speech_arguments (B:=reference_backend)
              convert_cd "cd.wav"
              0.5%float 120 "com.apple.voice.compact.en-GB.Daniel" world_cd_recording)
    as (Hsame & _ & Hout).
  - reflexivity.
  - reflexivity.
  - discriminate.
  - reflexivity.
  - reflexivity.
  - split; [exact Hsame|].
    refine (proj1 (Hout (pcm_wav (sound 5 44100 2 2)) (sound 5 44100 2 2) _ _ _ _)).
    + vm_compute. reflexivity.
    + reflexivity.
    + reflexivity.
    + reflexivity.
Defined.

(** ** Which diagnostic the validator prints *)

Section Diagnostics.
Variables (file_name : string) (p : WavFormat) (w : World).
Variables (f : File) (s : pydub.AudioSegment) (h : wave.Wave_read).
Hypothesis Hfile : files w !! normpath file_name = Some f.
Hypothesis Hsound : from_file_view f = Some s.
Hypothesis Hheader : wave_open_view f = Some h.

(** The output of a run of [validate_wav] on a file both readers open:
    the header report, then at most one diagnostic. *)
Lemma validate_wav_stdout :
  exists diagnostic,
    stdout (snd (validate_wav file_name p w))
    = (stdout w ++ header_report h ++ diagnostic)%list
    /\ diagnostic =
       if Qgtb (pydub.duration_seconds s) (inject_Z (max_length p)) then
         [PrTooLong (pydub.duration_seconds s) (max_length p)]
       else if negb (pydub.frame_rate s =? bit_rate p * 1000) then
         [PrWrongBitRate (pydub.frame_rate s) (bit_rate p * 1000)]
       else if Qneb (inject_Z (pydub.sample_width s)) (inject_Z (sampling_rate p) / 8) then
         [PrWrongSamplingRate (pydub.sample_width s) (inject_Z (sampling_rate p) / 8)]
       else if negb (pydub.channels s =? channel p) then
         [PrWrongChannelCount (pydub.channels s) (channel p)]
       else if negb (String.eqb (file_modulation_of h) (modulation p)) then
         [PrWrongModulation (file_modulation_of h) (modulation p)]
       else [].
Proof.
  eexists. split; [|reflexivity].
  unfold validate_wav, AudioSegment_from_file, validate_wav_mod, wave_open,
    read_file, log_call, print, bind, ret, raise, add_call, add_output,
    header_report, file_modulation_of.
  cbn [files]. rewrite Hfile, Hsound. cbn [files]. rewrite Hfile, Hheader.
  destruct (String.eqb (wave.getcomptype h) "NONE");
    cbn [snd stdout];
    repeat (case_if; cbn [snd stdout];
            [rewrite <- !app_assoc; reflexivity|]);
    rewrite <- !app_assoc; reflexivity.
Qed.

End Diagnostics.

Section FirstFailure.
Variables (file_name : string) (p : WavFormat) (w : World).
Variables (f : File) (s : pydub.AudioSegment) (h : wave.Wave_read).
Hypothesis Hfile : files w !! normpath file_name = Some f.
Hypothesis Hsound : from_file_view f = Some s.
Hypothesis Hheader : wave_open_view f = Some h.

Let printed := stdout (snd (validate_wav file_name p w)).
Let report := (stdout w ++ header_report h)%list.
Let too_long := Qgtb (pydub.duration_seconds s) (inject_Z (max_length p)).
Let rate_differs := negb (pydub.frame_rate s =? bit_rate p * 1000).
Let width_differs :=
  Qneb (inject_Z (pydub.sample_width s)) (inject_Z (sampling_rate p) / 8).
Let channels_differ := negb (pydub.channels s =? channel p).
Let modulation_differs := negb (String.eqb (file_modulation_of h) (modulation p)).

(** The comparisons are made in the order duration, frame rate, sample
    width, channels, modulation; the first that fails decides the one
    diagnostic printed, which carries the value found and the value
    expected, whatever the later comparisons would say.  The result is
    [False] exactly when one of them fails. *)
Theorem validate_wav_first_failing_check :
  (too_long = true ->
   printed = (report ++ [PrTooLong (pydub.duration_seconds s) (max_length p)])%list)
  /\ (too_long = false -> rate_differs = true ->
      printed = (report ++ [PrWrongBitRate (pydub.frame_rate s) (bit_rate p * 1000)])%list)
  /\ (too_long = false -> rate_differs = false -> width_differs = true ->
      printed = (report ++ [PrWrongSamplingRate (pydub.sample_width s)
                              (inject_Z (sampling_rate p) / 8)])%list)
  /\ (too_long = false -> rate_differs = false -> width_differs = false ->
      channels_differ = true ->
      printed = (report ++ [PrWrongChannelCount (pydub.channels s) (channel p)])%list)
  /\ (too_long = false -> rate_differs = false -> width_differs = false ->
      channels_differ = false -> modulation_differs = true ->
      printed = (report ++ [PrWrongModulation (file_modulation_of h) (modulation p)])%list)
  /\ (too_long = false -> rate_differs = false -> width_differs = false ->
      channels_differ = false -> modulation_differs = false ->
      printed = report)
  /\ fst (validate_wav file_name p w)
     = Returned (negb (too_long || rate_differs || width_differs
                       || channels_differ || modulation_differs)).
Proof.
  destruct (validate_wav_stdout file_name p w f s h Hfile Hsound Hheader)
    as (diagnostic & Hout & Hdiag).
  subst printed report too_long rate_differs width_differs channels_differ
    modulation_differs.
  rewrite Hout, Hdiag. clear Hout Hdiag.
  repeat split.
  - intros ->. rewrite <- app_assoc. reflexivity.
  - intros -> ->. rewrite <- app_assoc. reflexivity.
  - intros -> -> ->. rewrite <- app_assoc. reflexivity.
  - intros -> -> -> ->. rewrite <- app_assoc. reflexivity.
  - intros -> -> -> -> ->. rewrite <- app_assoc. reflexivity.
  - intros -> -> -> -> ->. rewrite app_nil_r. reflexivity.
  - rewrite (validate_wav_returns file_name p w f s h Hfile Hsound Hheader).
    unfold checks_pass, Qgtb, Qneb, file_modulation_of.
    destruct (Qle_bool _ _), (pydub.frame_rate s =? _), (Qeq_bool _ _),
      (pydub.channels s =? _), (String.eqb _ (modulation p)); reflexivity.
Qed.

End FirstFailure.

(** The stereo file under the default profile: everything up to the
    channel count passes, and the diagnostic reads 2 found, 1 expected. *)
Lemma validate_wav_stereo_scenario :
  stdout (snd (validate_wav "a.wav" WAV_FORMAT world_16kHz_16bit_stereo))
  = (stdout world_16kHz_16bit_stereo
     ++ header_report {| wave.getsampwidth := 2; wave.getframerate := 16000;
                         wave.getnchannels := 2; wave.getnframes := 80000;
                         wave.getcomptype := "NONE" |}
     ++ [PrWrongChannelCount 2 1])%list.
Proof.
  pose proof (validate_wav_first_failing_check "a.wav" WAV_FORMAT
                world_16kHz_16bit_stereo (pcm_wav (sound 5 16000 2 2))
                (sound 5 16000 2 2)
                {| wave.getsampwidth := 2; wave.getframerate := 16000;
                   wave.getnchannels := 2; wave.getnframes := 80000;
                   wave.getcomptype := "NONE" |}
                eq_refl eq_refl eq_refl) as (_ & _ & _ & Hchannels & _).
  rewrite app_assoc. apply Hchannels; reflexivity.
Defined.

Section DefaultProfile.
Variables (file_name : string) (w : World).
Variables (f : File) (s : pydub.AudioSegment) (h : wave.Wave_read).
Hypothesis Hfile : files w !! normpath file_name = Some f.
Hypothesis Hsound : from_file_view f = Some s.
Hypothesis Hheader : wave_open_view f = Some h.

(** Under the default profile a recording of exactly ten seconds at
    16000 Hz, two bytes a sample, mono and uncompressed is valid, and any
    recording longer than ten seconds is refused as too long. *)
Theorem validate_wav_duration_boundary :
  ((pydub.duration_seconds s == 10)%Q ->
   pydub.frame_rate s = 16000 -> pydub.sample_width s = 2 ->
   pydub.channels s = 1 -> wave.getcomptype h = "NONE" ->
   fst (validate_wav file_name WAV_FORMAT w) = Returned true)
  /\ ((10 < pydub.duration_seconds s)%Q ->
      fst (validate_wav file_name WAV_FORMAT w) = Returned false
      /\ stdout (snd (validate_wav file_name WAV_FORMAT w))
         = (stdout w ++ header_report h
            ++ [PrTooLong (pydub.duration_seconds s) 10])%list).
Proof.
  split.
  - intros Hten Hrate Hwidth Hchans Hcomp.
    rewrite (validate_wav_returns file_name WAV_FORMAT w f s h Hfile Hsound Hheader).
    unfold checks_pass. rewrite Hrate, Hwidth, Hchans, Hcomp.
    replace (Qle_bool (pydub.duration_seconds s) (inject_Z (max_length WAV_FORMAT)))
      with true; [reflexivity|].
    symmetry. apply Qle_bool_iff. rewrite Hten. apply Qle_refl.
  - intros Hlong.
    assert (Hgt : Qgtb (pydub.duration_seconds s) (inject_Z (max_length WAV_FORMAT)) = true).
    { unfold Qgtb. apply negb_true_iff. apply not_true_is_false.
      intros Hle. apply Qle_bool_iff in Hle.
      apply (Qlt_irrefl 10). eapply Qlt_le_trans; [exact Hlong | exact Hle]. }
    split.
    + rewrite (validate_wav_returns file_name WAV_FORMAT w f s h Hfile Hsound Hheader).
      unfold checks_pass. unfold Qgtb in Hgt. apply negb_true_iff in Hgt.
      rewrite Hgt. reflexivity.
    + destruct (validate_wav_stdout file_name WAV_FORMAT w f s h Hfile Hsound Hheader)
        as (diagnostic & Hout & Hdiag).
      rewrite Hout, Hdiag, Hgt. reflexivity.
Qed.

(** A stereo recording that otherwise conforms to the default profile is
    refused for its channel count, found 2, expected 1. *)
Theorem validate_wav_stereo_under_default_profile :
  (pydub.duration_seconds s <= 10)%Q ->
  pydub.frame_rate s = 16000 ->
  pydub.sample_width s = 2 ->
  pydub.channels s = 2 ->
  fst (validate_wav file_name WAV_FORMAT w) = Returned false
  /\ stdout (snd (validate_wav file_name WAV_FORMAT w))
     = (stdout w ++ header_report h ++ [PrWrongChannelCount 2 1])%list.
Proof.
  intros Hshort Hrate Hwidth Hchans.
  apply Qle_bool_iff in Hshort.
  split.
  - rewrite (validate_wav_returns file_name WAV_FORMAT w f s h Hfile Hsound Hheader).
    unfold checks_pass. rewrite Hrate, Hwidth, Hchans.
    change (inject_Z (max_length WAV_FORMAT)) with 10%Q. rewrite Hshort. reflexivity.
  - destruct (validate_wav_stdout file_name WAV_FORMAT w f s h Hfile Hsound Hheader)
      as (diagnostic & Hout & Hdiag).
    rewrite Hout, Hdiag. unfold Qgtb.
    change (inject_Z (max_length WAV_FORMAT)) with 10%Q.
    rewrite Hshort, Hrate, Hwidth, Hchans. reflexivity.
Qed.

End DefaultProfile.

Lemma validate_wav_duration_boundary_example :
  fst (validate_wav "a.wav" WAV_FORMAT
         (world_with "a.wav" (pcm_wav (sound 10 16000 2 1)))) = Returned true.
Proof.
  refine (proj1 (validate_wav_duration_boundary "a.wav"
                   (world_with "a.wav" (pcm_wav (sound 10 16000 2 1)))
                   (pcm_wav (sound 10 16000 2 1)) (sound 10 16000 2 1) _
                   eq_refl eq_refl eq_refl) _ _ _ _ _); reflexivity.
Defined.

Lemma validate_wav_stereo_example :
  fst (validate_wav "a.wav" WAV_FORMAT world_16kHz_16bit_stereo) = Returned false.
Proof.
  refine (proj1 (validate_wav_stereo_under_default_profile "a.wav"
                   world_16kHz_16bit_stereo (pcm_wav (sound 5 16000 2 2))
                   (sound 5 16000 2 2) _ eq_refl eq_refl eq_refl _ _ _ _)).
  - vm_compute. discriminate.
  - reflexivity.
  - reflexivity.
  - reflexivity.
Defined.

(** * Further properties of the script's functions *)

(** ** [validate_wav]: outcomes and side effects *)

Section ValidateOutcomes.
Variables (file_name : string) (p : WavFormat) (w : World).

Lemma validate_wav_dirs :
  dirs (snd (validate_wav file_name p w)) = dirs w.
Proof.
  unfold validate_wav, AudioSegment_from_file, validate_wav_mod, wave_open,
    read_file, log_call, print, bind, ret, raise, add_call, add_output.
  cbn [files].
  destruct (files w !! normpath file_name) as [f|]; [|reflexivity].
  destruct (from_file_view f) as [s|]; [|reflexivity].
  cbn [files]. destruct (files w !! normpath file_name) as [f'|]; [|reflexivity].
  destruct (wave_open_view f') as [h|]; [|reflexivity].
  destruct (String.eqb (wave.getcomptype h) "NONE");
    repeat (case_if; [reflexivity|]); reflexivity.
Qed.

(** [validate_wav] reads and never writes: the files and directories are
    the same after every run.  It raises exactly when the file is missing
    or one of the two readers refuses it, and then nothing has been
    printed; a file that [pydub] decodes and [wave] refuses, such as an
    AIFF, ends in [wave.Error], not in a verdict.  Otherwise it returns the
    conjunction of its five comparisons. *)
Theorem validate_wav_outcomes :
  files (snd (validate_wav file_name p w)) = files w
  /\ dirs (snd (validate_wav file_name p w)) = dirs w
  /\ match files w !! normpath file_name with
     | None =>
         validate_wav file_name p w
         = (Raised (FileNotFoundError file_name), add_call (FromFile file_name) w)
     | Some f =>
         match from_file_view f, wave_open_view f with
         | None, _ =>
             validate_wav file_name p w
             = (Raised (CouldntDecodeError file_name), add_call (FromFile file_name) w)
         | Some _, None =>
             validate_wav file_name p w
             = (Raised (WaveError file_name),
                add_call (WaveOpen file_name) (add_call (FromFile file_name) w))
         | Some s, Some h =>
             fst (validate_wav file_name p w) = Returned (checks_pass p s h)
         end
     end.
Proof.
  split; [apply validate_wav_files|]. split; [apply validate_wav_dirs|].
  destruct (files w !! normpath file_name) as [f|] eqn:Hfile.
  - destruct (from_file_view f) as [s|] eqn:Hsound.
    + destruct (wave_open_view f) as [h|] eqn:Hheader.
      * exact (validate_wav_returns file_name p w f s h Hfile Hsound Hheader).
      * unfold validate_wav, bind. rewrite from_file_unfold, Hfile, Hsound.
        unfold validate_wav_mod, wave_open, bind, log_call, read_file, raise.
        cbn [files add_call]. rewrite Hfile, Hheader. reflexivity.
    + destruct (wave_open_view f);
        unfold validate_wav, bind; rewrite from_file_unfold, Hfile, Hsound;
        reflexivity.
  - unfold validate_wav, bind. rewrite from_file_unfold, Hfile. reflexivity.
Qed.

End ValidateOutcomes.

(** ** [remove_file] *)

Section RemoveFile.
Variables (file_name : string) (w : World).

(** [remove_file] returns exactly when the path holds a file.  It then
    deletes that file and no other, and a second removal of the same path
    raises.  When the path holds no file it raises [OSError] with the
    message [Unable to remove file: ], the path, and in brackets the text
    of the operating system's error; the files are untouched.  It never
    prints. *)
Theorem remove_file_outcomes :
  (exists_file w file_name = true ->
   fst (remove_file file_name w) = Returned tt
   /\ exists_file (snd (remove_file file_name w)) file_name = false
   /\ (forall other,
         relative_without_dotdot other = true ->
         relative_without_dotdot file_name = true ->
         normpath other <> normpath file_name ->
         files (snd (remove_file file_name w)) !! normpath other
         = files w !! normpath other)
   /\ exists os_text,
        fst (remove_file file_name (snd (remove_file file_name w)))
        = Raised (OSError ("Unable to remove file: " ++ file_name
                           ++ " (" ++ os_text ++ ")")))
  /\ (exists_file w file_name = false ->
      (exists os_text,
          fst (remove_file file_name w)
          = Raised (OSError ("Unable to remove file: " ++ file_name
                             ++ " (" ++ os_text ++ ")")))
      /\ files (snd (remove_file file_name w)) = files w)
  /\ stdout (snd (remove_file file_name w)) = stdout w
  /\ dirs (snd (remove_file file_name w)) = dirs w.
Proof.
  unfold exists_file. rewrite !remove_file_unfold.
  destruct (files w !! normpath file_name) as [f|] eqn:Hfile.
  - split; [|split; [|split; reflexivity]].
    + intros _. cbn [fst snd files set_files add_call].
      split; [reflexivity|]. split.
      * rewrite lookup_delete_eq. apply bool_decide_eq_false. intros [? [=]].
      * split.
        -- intros other _ _ Hother. apply lookup_delete_ne. congruence.
        -- rewrite lookup_delete_eq.
           exists ("No such file or directory: " ++ file_name). reflexivity.
    + intros Hnone. apply bool_decide_eq_false in Hnone.
      exfalso. apply Hnone. eexists. reflexivity.
  - split; [|split; [|split; reflexivity]].
    + intros Hsome. apply bool_decide_eq_true in Hsome. destruct Hsome as [? [=]].
    + intros _. split; [|reflexivity].
      exists ("No such file or directory: " ++ file_name). reflexivity.
Qed.

End RemoveFile.

Lemma remove_file_example :
  fst (remove_file "a.wav" world_8kHz_16bit) = Returned tt
  /\ exists_file (snd (remove_file "a.wav" world_8kHz_16bit)) "a.wav" = false.
Proof.
  destruct (remove_file_outcomes "a.wav" world_8kHz_16bit) as (Hthere & _).
  destruct Hthere as (Hret & Hgone & _); [vm_compute; reflexivity|].
  split; [exact Hret | exact Hgone].
Defined.

(** ** [convert_to_wav]: what it touches *)

Section ConvertEffects.
Context {B : Backend}.
Variables (input_file output_file codec bitrate : string).
Variables (chans width hz : Z) (w : World).

Let run := convert_to_wav input_file output_file codec bitrate chans width hz w.

(** Whatever its arguments, [convert_to_wav] prints nothing and changes
    no file other than the one at the output path: an input stored
    elsewhere is left as it was.  It can return only if the input decodes
    and the directory of the output exists, and the output file then
    exists.  The input is read before anything else is done: a missing
    input ends the call in [FileNotFoundError] and one that does not decode
    in [CouldntDecodeError], in both cases before the output is opened,
    with no file changed. *)
Theorem convert_to_wav_effects :
  stdout (snd run) = stdout w
  /\ dirs (snd run) = dirs w
  /\ (forall other,
        relative_without_dotdot other = true ->
        relative_without_dotdot output_file = true ->
        normpath other <> normpath output_file ->
        files (snd run) !! normpath other = files w !! normpath other)
  /\ (fst run = Returned tt ->
      (exists f s, files w !! normpath input_file = Some f /\ from_file_view f = Some s)
      /\ dir_exists w (dirname (normpath output_file)) = true
      /\ exists_file (snd run) output_file = true)
  /\ (files w !! normpath input_file = None ->
      run = (Raised (FileNotFoundError input_file), add_call (FromFile input_file) w))
  /\ (forall f,
        files w !! normpath input_file = Some f ->
        from_file_view f = None ->
        run = (Raised (CouldntDecodeError input_file), add_call (FromFile input_file) w)).
Proof.
  subst run. rewrite convert_to_wav_unfold.
  destruct (files w !! normpath input_file) as [f|] eqn:Hin.
  - destruct (from_file_view f) as [s|] eqn:Hdec.
    + cbv zeta. destruct (dir_exists w (dirname (normpath output_file))) eqn:Hdir;
        cbn [fst snd files stdout dirs set_files add_call].
      * split; [reflexivity|]. split; [reflexivity|].
        split; [intros other _ _ Hother; apply lookup_insert_ne; congruence|].
        split.
        { intros _. split; [eauto|]. split; [reflexivity|].
          unfold exists_file. cbn [files set_files].
          rewrite lookup_insert_eq. apply bool_decide_eq_true. eexists. reflexivity. }
        split; [discriminate|]. intros f' [= <-] Hnone. congruence.
      * split; [reflexivity|]. split; [reflexivity|]. split; [reflexivity|].
        split; [discriminate|]. split; [discriminate|].
        intros f' [= <-] Hnone. congruence.
    + cbn [fst snd files stdout dirs add_call].
      split; [reflexivity|]. split; [reflexivity|]. split; [reflexivity|].
      split; [discriminate|]. split; [discriminate|]. reflexivity.
  - cbn [fst snd files stdout dirs add_call].
    split; [reflexivity|]. split; [reflexivity|]. split; [reflexivity|].
    split; [discriminate|]. split; [reflexivity|]. discriminate.
Qed.

End ConvertEffects.

(** ** Converting what was already converted *)

Lemma dir_exists_same_dirs w w' d :
  dirs w' = dirs w -> dir_exists w' d = dir_exists w d.
Proof. intros Hdirs. unfold dir_exists. rewrite Hdirs. reflexivity. Qed.

Section ConvertTwice.
Context {B : Backend} {L : HonoursDefaultTargets B}.

(** Conversion can be repeated: convert a decodable input, convert the
    result again, each time to a file's place in an existing directory,
    with a back end that honours the three targets.  The file written last
    is accepted by the validator under the default profile as soon as,
    read back, it lasts at most ten seconds.  In particular a file that
    already conforms still conforms after a conversion that does not
    lengthen it past the limit. *)
Theorem convert_twice_then_validate
    input_file first_output second_output w f s s1 s2 :
  files w !! normpath input_file = Some f ->
  from_file_view f = Some s ->
  dir_exists w (dirname (normpath first_output)) = true ->
  dir_exists w (normpath first_output) = false ->
  dir_exists w (dirname (normpath second_output)) = true ->
  dir_exists w (normpath second_output) = false ->
  from_file_view (converted_file s) = Some s1 ->
  from_file_view (converted_file s1) = Some s2 ->
  (pydub.duration_seconds s2 <= 10)%Q ->
  fst ((convert_to_wav_default input_file first_output ;;;
        convert_to_wav_default first_output second_output ;;;
        validate_wav second_output WAV_FORMAT) w)
  = Returned true.
Proof.
  intros Hin Hdec Hdir1 _ Hdir2 _ Hreads1 Hreads2 Hshort.
  pose proof (convert_to_wav_default_world _ _ _ _ _ Hin Hdec Hdir1) as Hrun1.
  rewrite (bind_returned _ _ _ _ _ Hrun1).
  match type of Hrun1 with _ = (_, ?x) => set (w1 := x) in * end.
  assert (Hin1 : files w1 !! normpath first_output = Some (converted_file s)).
  { subst w1. cbn [files set_files]. apply lookup_insert_eq. }
  assert (Hdir2' : dir_exists w1 (dirname (normpath second_output)) = true).
  { rewrite (dir_exists_same_dirs w w1) by reflexivity. exact Hdir2. }
  pose proof (convert_to_wav_default_world _ _ _ _ _ Hin1 Hreads1 Hdir2') as Hrun2.
  rewrite (bind_returned _ _ _ _ _ Hrun2).
  match type of Hrun2 with _ = (_, ?x) => set (w2 := x) in * end.
  destruct (converted_file_format s1) as (s0 & h & Hfile & Hrate & Hwidth & Hchans & Hcomp).
  rewrite Hfile in Hreads2. injection Hreads2 as ->.
  assert (Hin2 : files w2 !! normpath second_output
                 = Some {| from_file_view := Some s2; wave_open_view := Some h |}).
  { subst w2. cbn [files set_files]. rewrite lookup_insert_eq, Hfile. reflexivity. }
  rewrite (validate_wav_returns _ WAV_FORMAT _ _ s2 h Hin2 eq_refl eq_refl).
  f_equal. apply checks_pass_targets; try assumption; reflexivity.
Qed.

End ConvertTwice.

(** Converting the 16 kHz, 16-bit file twice, from [a.wav] to [b.wav] to
    [c.wav]. *)
Lemma convert_twice_example :
  fst ((convert_to_wav_default (B:=reference_backend) "a.wav" "b.wav" ;;;
        convert_to_wav_default (B:=reference_backend) "b.wav" "c.wav" ;;;
        validate_wav "c.wav" WAV_FORMAT) world_16kHz_16bit)
  = Returned true.
Proof.
  apply (convert_twice_then_validate (B:=reference_backend)
           (L:=reference_backend_honours_targets) "a.wav" "b.wav" "c.wav"
           world_16kHz_16bit
           (pcm_wav (sound 5 16000 2 1)) (sound 5 16000 2 1)
           (sound 5 16000 2 1) (sound 5 16000 2 1)).
  - reflexivity.
  - reflexivity.
  - reflexivity.
  - reflexivity.
  - reflexivity.
  - reflexivity.
  - reflexivity.
  - reflexivity.
  - vm_compute. discriminate.
Defined.

(** ** Profiles no file satisfies *)

(** [validate_wav] can return [True] only when both readers open the
    file, the profile's sampling rate is eight times the sample width (so a
    sampling rate that is no multiple of 8 refuses every file), the frame
    rate is a thousand times the profile's bit rate, and the profile's
    modulation is one of the two strings the validator can produce. *)
Theorem validate_wav_true_only_if file_name p w :
  fst (validate_wav file_name p w) = Returned true ->
  exists f s h,
    files w !! normpath file_name = Some f
    /\ from_file_view f = Some s
    /\ wave_open_view f = Some h
    /\ sampling_rate p = 8 * pydub.sample_width s
    /\ sampling_rate p mod 8 = 0
    /\ pydub.frame_rate s = bit_rate p * 1000
    /\ pydub.channels s = channel p
    /\ (pydub.duration_seconds s <= inject_Z (max_length p))%Q
    /\ (modulation p = "PCM" \/ modulation p = "Not PCM")
    /\ (modulation p = "PCM" <-> wave.getcomptype h = "NONE").
Proof.
  intros Htrue. pose proof Htrue as Hopen.
  unfold validate_wav, bind in Hopen. rewrite from_file_unfold in Hopen.
  destruct (files w !! normpath file_name) as [f|] eqn:Hfile; [|discriminate].
  destruct (from_file_view f) as [s|] eqn:Hsound; [|discriminate].
  destruct (wave_open_view f) as [h|] eqn:Hheader.
  2:{ unfold validate_wav_mod, wave_open, bind, log_call, read_file, raise in Hopen.
      cbn [files add_call] in Hopen. rewrite Hfile, Hheader in Hopen. discriminate. }
  clear Hopen.
  rewrite (validate_wav_returns file_name p w f s h Hfile Hsound Hheader) in Htrue.
  injection Htrue as Hpass. unfold checks_pass in Hpass.
  apply andb_true_iff in Hpass as [Hpass Hmod].
  apply andb_true_iff in Hpass as [Hpass Hchans].
  apply andb_true_iff in Hpass as [Hpass Hwidth].
  apply andb_true_iff in Hpass as [Hdur Hrate].
  apply Qle_bool_iff in Hdur. apply Z.eqb_eq in Hrate, Hchans.
  apply Qeq_bool_iff in Hwidth. apply String.eqb_eq in Hmod.
  assert (Height : sampling_rate p = 8 * pydub.sample_width s).
  { unfold Qeq in Hwidth. cbn in Hwidth. lia. }
  exists f, s, h.
  split; [reflexivity|]. split; [exact Hsound|]. split; [exact Hheader|].
  split; [exact Height|].
  split; [rewrite Height, Z.mul_comm; apply Z_mod_mult|].
  split; [exact Hrate|]. split; [exact Hchans|]. split; [exact Hdur|].
  destruct (String.eqb_spec (wave.getcomptype h) "NONE") as [Hnone|Hother].
  - split; [left; congruence|]. split; congruence.
  - split; [right; congruence|].
    split; [intros Hpcm; rewrite Hpcm in Hmod; discriminate | contradiction].
Qed.

Lemma validate_wav_true_example :
  exists s,
    files world_16kHz_16bit !! normpath "a.wav" = Some (pcm_wav s)
    /\ sampling_rate WAV_FORMAT = 8 * pydub.sample_width s.
Proof.
  destruct (validate_wav_true_only_if "a.wav" WAV_FORMAT world_16kHz_16bit)
    as (f & s & h & Hfile & Hsound & Hheader & Height & _).
  - vm_compute. reflexivity.
  - exists (sound 5 16000 2 1). split; [reflexivity|].
    assert (Hs : s = sound 5 16000 2 1).
    { change (files world_16kHz_16bit !! normpath "a.wav")
        with (Some (pcm_wav (sound 5 16000 2 1))) in Hfile.
      injection Hfile as <-. cbn in Hsound. congruence. }
    rewrite <- Hs. exact Height.
Defined.

(** ** [main]: the ValidateOnly branch *)

Section ValidateOnly.
Context {B : Backend}.
Variables (pargs : Namespace) (input_file : string) (w : World).
Hypothesis Htext : truthy_str (text pargs) = false.
Hypothesis Hinput : input pargs = Some input_file.
Hypothesis Hname : input_file <> "".
Hypothesis Hvalidate : validate pargs = true.

Lemma main_validate_unfold :
  main pargs w = (validate_wav input_file WAV_FORMAT ;;; ret tt) w.
Proof.
  unfold main. rewrite Htext, Hinput, Hvalidate. cbn [truthy_str].
  destruct (String.eqb_spec input_file "") as [|_]; [contradiction|]. reflexivity.
Qed.

(** With [-i FILE -v] the run reads the file and changes no file.  It
    depends on nothing but the input path: the output directory, the gain,
    the rate, the narrator and the convert flag are not read.  The verdict
    is printed and then dropped: on a file both readers open the run
    returns [None] whether the file conforms or not, and the output is the
    header report followed by a diagnostic exactly when the file is
    refused. *)
Theorem main_validate_only :
  files (snd (main pargs w)) = files w
  /\ (forall pargs',
        truthy_str (text pargs') = false ->
        input pargs' = Some input_file ->
        validate pargs' = true ->
        main pargs' w = main pargs w)
  /\ (forall f s h,
        files w !! normpath input_file = Some f ->
        from_file_view f = Some s ->
        wave_open_view f = Some h ->
        fst (main pargs w) = Returned tt
        /\ (checks_pass WAV_FORMAT s h = true <->
            stdout (snd (main pargs w)) = (stdout w ++ header_report h)%list)).
Proof.
  split; [|split].
  - rewrite main_validate_unfold, then_ret_tt_files. apply validate_wav_files.
  - intros pargs' Htext' Hinput' Hvalidate'.
    rewrite main_validate_unfold.
    unfold main. rewrite Htext', Hinput', Hvalidate'. cbn [truthy_str].
    destruct (String.eqb_spec input_file "") as [|_]; [contradiction|]. reflexivity.
  - intros f s h Hfile Hsound Hheader.
    rewrite main_validate_unfold.
    pose proof (validate_wav_returns input_file WAV_FORMAT w f s h Hfile Hsound Hheader)
      as Hret.
    destruct (validate_wav_stdout input_file WAV_FORMAT w f s h Hfile Hsound Hheader)
      as (diagnostic & Hout & Hdiag).
    unfold bind, ret.
    destruct (validate_wav input_file WAV_FORMAT w) as [[b|e] w'];
      cbn [fst snd] in *; [|discriminate].
    split; [reflexivity|].
    rewrite Hout, Hdiag. unfold checks_pass, Qgtb, Qneb, file_modulation_of.
    destruct (Qle_bool _ _), (pydub.frame_rate s =? _), (Qeq_bool _ _),
      (pydub.channels s =? _), (String.eqb _ (modulation WAV_FORMAT));
      cbn [andb negb];
      (split; [intros Hpass; try discriminate; rewrite ?app_nil_r; reflexivity|]);
      intros Heq; try reflexivity;
      apply app_inv_head in Heq;
      apply (f_equal (@List.length Printed)) in Heq;
      rewrite length_app in Heq; cbn [List.length] in Heq; lia.
Qed.

End ValidateOnly.

(** [-i a.wav -v] on the 8 kHz file: refused, and the run still returns. *)
Lemma main_validate_only_example :
  files (snd (main (B:=reference_backend) validate_a_wav world_8kHz_16bit))
  = files world_8kHz_16bit.
Proof.
  refine (proj1 (main_validate_only (B:=reference_backend) validate_a_wav "a.wav"
                   world_8kHz_16bit _ _ _ _)).
  - reflexivity.
  - reflexivity.
  - discriminate.
  - reflexivity.
Defined.

(** ** [generate_wav]: the voice *)

Section GenerateVoice.
Context {B : Backend}.

(** The Generate workflow reads the text, the gain, the rate and the
    output directory and nothing else: the narrator chosen on the command
    line is never handed to the synthesiser, which always gets the default
    voice, and the profile handed to [generate_wav] is not used.  When the
    default voice is not installed the run raises [ValueError] before
    anything is synthesised, written or printed, whatever narrator was
    chosen. *)
Theorem generate_wav_always_uses_default_voice pargs wav_format w :
  (forall pargs' wav_format',
      text pargs' = text pargs ->
      gain pargs' = gain pargs ->
      rate pargs' = rate pargs ->
      output pargs' = output pargs ->
      generate_wav pargs' wav_format' w = generate_wav pargs wav_format w)
  /\ (existsb (String.eqb NARRATOR) availableVoices = false ->
      generate_wav pargs wav_format w
      = (Raised (ValueError ("Invalid narrator: " ++ NARRATOR)), w)).
Proof.
  split.
  - intros pargs' wav_format' Htext Hgain Hrate Houtput.
    unfold generate_wav. rewrite Htext, Hgain, Hrate, Houtput. reflexivity.
  - intros Hmissing. unfold generate_wav. cbv zeta.
    apply bind_raised. rewrite text_to_speech_unfold, Hmissing. reflexivity.
Qed.

End GenerateVoice.

(** On a machine with another voice only, asking for that voice does not
    help. *)
Lemma generate_wav_without_default_voice :
  generate_wav (B:=backend_without_default_voice)
    (with_speech_arguments (say_hello_into ".") 1%float RATE
       "com.apple.voice.compact.en-GB.Daniel")
    WAV_FORMAT empty_world
  = (Raised (ValueError ("Invalid narrator: " ++ NARRATOR)), empty_world).
Proof.
  apply (generate_wav_always_uses_default_voice (B:=backend_without_default_voice)).
  reflexivity.
Defined.

(** ** From the command line to the synthesiser *)

Lemma accepted_gain_is_truthy g :
  PrimFloat.leb 0.01%float g = true -> truthy_float g = true.
Proof.
  unfold truthy_float. rewrite FloatAxioms.leb_spec, FloatAxioms.eqb_spec.
  change (Prim2SF 0) with (S754_zero false).
  assert (Hlow : Prim2SF 0.01%float = S754_finite false 5764607523034235 (-59))
    by (vm_compute; reflexivity).
  rewrite Hlow.
  destruct (Prim2SF g) as [sg | sg | | sg m e]; cbn; try discriminate; try reflexivity;
    destruct sg; cbn; try discriminate; reflexivity.
Qed.

Section SpeechArguments.
Context {B : Backend}.

(** A gain that [check_gain] accepts and a rate among [range(1, 300)] are
    never dropped by the truthiness tests of [text_to_speech]: the volume
    and the rate of the synthesiser are set to them.  A gain or a rate of
    zero handed to [text_to_speech] directly is treated as not given. *)
Theorem validated_gain_and_rate_reach_synthesiser
    py_float value g r text output_file narrator w :
  check_gain py_float value = Returned g ->
  1 <= r < 300 ->
  existsb (String.eqb narrator) availableVoices = true ->
  text_to_speech text output_file narrator (Some g) (Some r) w
  = speak_to_URL narrator (Some g) (Some r) text output_file w
  /\ text_to_speech text output_file narrator (Some 0%float) (Some 0) w
     = text_to_speech text output_file narrator None None w.
Proof.
  intros Hgain Hrate Hvoice. split; [|reflexivity].
  unfold check_gain in Hgain.
  destruct (py_float value) as [f|]; [|discriminate].
  destruct (PrimFloat.leb 0.01%float f) eqn:Hlow; [|discriminate].
  destruct (PrimFloat.leb f 1%float); [|discriminate].
  injection Hgain as <-.
  unfold text_to_speech, list_voices. rewrite Hvoice. cbn [negb].
  rewrite (accepted_gain_is_truthy f Hlow).
  unfold truthy_int. destruct (Z.eqb_spec r 0) as [->|_]; [lia|]. reflexivity.
Qed.

End SpeechArguments.

Lemma half_gain_reaches_synthesiser :
  text_to_speech (B:=reference_backend) (Some "hello") "temp_speech.aiff" NARRATOR
    (Some 0.5%float) (Some RATE) empty_world
  = speak_to_URL (B:=reference_backend) NARRATOR (Some 0.5%float) (Some RATE)
      (Some "hello") "temp_speech.aiff" empty_world.
Proof.
  refine (proj1 (validated_gain_and_rate_reach_synthesiser (B:=reference_backend)
                   float_of_plain_decimal "0.5" 0.5%float RATE (Some "hello")
                   "temp_speech.aiff" NARRATOR empty_world _ _ _)).
  - vm_compute. reflexivity.
  - unfold RATE. lia.
  - reflexivity.
Defined.

(** ** [generate_wav]: where the files end up *)

Lemma output_path_is_not_cleanup_path dir :
  normpath (dir ++ "/" ++ FILE_NAME) <> normpath (dir ++ "/" ++ "temp_speech.aiff").
Proof.
  destruct (String.eqb_spec dir "") as [-> | Hdir]; [discriminate|].
  rewrite !normpath_join by exact Hdir.
  change (List.filter keep_component (split_slash "" "temp_speech.aiff"))
    with ["temp_speech.aiff"].
  change (List.filter keep_component (split_slash "" FILE_NAME)) with ["Speech.wav"].
  intros Heq. apply app_inv_head in Heq. discriminate.
Qed.

Lemma cwd_exists w : dir_exists w [] = true.
Proof. reflexivity. Qed.

Lemma exists_file_lookup w path :
  exists_file w path = true <-> is_Some (files w !! normpath path).
Proof. unfold exists_file. apply bool_decide_eq_true. Qed.

Lemma exists_file_none w path :
  exists_file w path = false <-> files w !! normpath path = None.
Proof.
  unfold exists_file. rewrite bool_decide_eq_false, <- eq_None_not_Some. reflexivity.
Qed.

Lemma then_ret_tt_world {X} (m : M X) w :
  snd ((m ;;; ret tt) w) = snd (m w).
Proof. unfold bind, ret. destruct (m w) as [[a|e] w1]; reflexivity. Qed.

Section GenerateElsewhere.
Context {B : Backend}.
Variables (pargs : Namespace) (wav_format : WavFormat) (w w1 w2 : World).

Let cleanup_path := output pargs ++ "/" ++ "temp_speech.aiff".
Let output_path := output pargs ++ "/" ++ FILE_NAME.
Let final := snd (generate_wav pargs wav_format w).

Hypothesis Hsubdir : normpath (output pargs) <> [].
Hypothesis Hsynth :
  text_to_speech (text pargs) "temp_speech.aiff" NARRATOR
    (Some (gain pargs)) (Some (rate pargs)) w = (Returned tt, w1).
Hypothesis Hconv :
  convert_to_wav_default "temp_speech.aiff" output_path w1 = (Returned tt, w2).

(** Let the output directory be given as a relative path without [".."]
    that leads below the working directory.  Once the speech is
    synthesised and converted, the cleanup looks for the
    temporary file in the output directory, where it was not written.  If
    no file of that name is there, the run ends in [OSError]: the output
    has been written but is never validated, and the synthesised file
    stays in the working directory.  If a file of that name is there, that
    file is deleted instead, and the synthesised file stays all the same. *)
Theorem generate_wav_into_other_directory :
  relative_without_dotdot (output pargs) = true ->
  (exists_file w1 cleanup_path = false ->
   (exists os_text,
       generate_wav pargs wav_format w
       = (Raised (OSError ("Unable to remove file: " ++ cleanup_path
                           ++ " (" ++ os_text ++ ")")),
          add_call (OsRemove cleanup_path) w2))
   /\ exists_file final output_path = true)
  /\ (exists_file w1 cleanup_path = true ->
      exists_file final cleanup_path = false)
  /\ exists_file final "temp_speech.aiff" = true.
Proof.
  intros _. subst final.
  assert (Helsewhere : normpath cleanup_path <> normpath "temp_speech.aiff").
  { subst cleanup_path.
    destruct (String.eqb_spec (output pargs) "") as [Hempty | Hdir];
      [rewrite Hempty; discriminate|].
    rewrite normpath_join by exact Hdir.
    change (List.filter keep_component (split_slash "" "temp_speech.aiff"))
      with ["temp_speech.aiff"].
    change (normpath "temp_speech.aiff") with ([] ++ ["temp_speech.aiff"])%list.
    intros Heq. apply app_inv_tail in Heq. contradiction. }
  pose proof (output_path_is_not_cleanup_path (output pargs)) as Hpaths.
  fold output_path cleanup_path in Hpaths.
  assert (Hrun : generate_wav pargs wav_format w
                 = (remove_file cleanup_path ;;;
                    (validate_wav output_path WAV_FORMAT ;;; ret tt)) w2).
  { unfold generate_wav. cbv zeta.
    rewrite (bind_returned _ _ _ _ _ Hsynth).
    fold output_path. rewrite (bind_returned _ _ _ _ _ Hconv). reflexivity. }
  pose proof Hconv as Hw2.
  unfold convert_to_wav_default in Hw2. rewrite convert_to_wav_unfold in Hw2.
  destruct (files w1 !! normpath "temp_speech.aiff") as [f|] eqn:Htemp; [|discriminate].
  destruct (from_file_view f) as [s|]; [|discriminate].
  cbv zeta in Hw2. destruct (dir_exists _ _); [|discriminate].
  injection Hw2 as Hw2.
  assert (Hcleanup : files w2 !! normpath cleanup_path = files w1 !! normpath cleanup_path).
  { rewrite <- Hw2. cbn [files set_files]. apply lookup_insert_ne. exact Hpaths. }
  assert (Houtput : is_Some (files w2 !! normpath output_path)).
  { rewrite <- Hw2. cbn [files set_files]. rewrite lookup_insert_eq. eexists. reflexivity. }
  assert (Hstays : is_Some (files w2 !! normpath "temp_speech.aiff")).
  { rewrite <- Hw2. cbn [files set_files]. rewrite lookup_insert.
    case_decide; [eexists; reflexivity | rewrite Htemp; eexists; reflexivity]. }
  rewrite Hrun. clear Hrun.
  pose proof (remove_file_unfold cleanup_path w2) as Hrm. rewrite Hcleanup in Hrm.
  destruct (files w1 !! normpath cleanup_path) as [stale|] eqn:Hstale.
  - rewrite (bind_returned _ _ _ _ _ Hrm), then_ret_tt_world.
    split; [intros Hnone; apply exists_file_none in Hnone; congruence|].
    split.
    + intros _. apply exists_file_none.
      rewrite validate_wav_files. cbn [files set_files]. apply lookup_delete_eq.
    + apply exists_file_lookup.
      rewrite validate_wav_files. cbn [files set_files].
      rewrite lookup_delete_ne by exact Helsewhere. exact Hstays.
  - rewrite (bind_raised _ _ _ _ _ Hrm). cbn [snd].
    split.
    { intros _. split; [|apply exists_file_lookup; exact Houtput].
      exists ("No such file or directory: " ++ cleanup_path). reflexivity. }
    split.
    + intros Hsome. apply exists_file_lookup in Hsome. rewrite Hstale in Hsome.
      destruct Hsome as [? [=]].
    + apply exists_file_lookup. exact Hstays.
Qed.

End GenerateElsewhere.

(** [-t hello -o out]: the run ends in [OSError] and the output is there. *)
Lemma generate_wav_into_out :
  exists_file
    (snd (generate_wav (B:=reference_backend) (say_hello_into "out")
            WAV_FORMAT world_with_out_dir))
    "temp_speech.aiff" = true.
Proof.
  refine (proj2 (proj2 (generate_wav_into_other_directory (B:=reference_backend)
                          (say_hello_into "out") WAV_FORMAT world_with_out_dir
                          (snd (text_to_speech (B:=reference_backend) (Some "hello")
                                  "temp_speech.aiff" NARRATOR (Some 1%float) (Some RATE)
                                  world_with_out_dir))
                          (snd ((text_to_speech (B:=reference_backend) (Some "hello")
                                   "temp_speech.aiff" NARRATOR (Some 1%float) (Some RATE) ;;;
                                 convert_to_wav_default (B:=reference_backend)
                                   "temp_speech.aiff" "out/Speech.wav")
                                  world_with_out_dir))
                          _ _ _ _))).
  - vm_compute. discriminate.
  - vm_compute. reflexivity.
  - vm_compute. reflexivity.
  - reflexivity.
Defined.

(** ** [generate_wav]: a run that succeeds *)

Section GenerateSucceeds.
Context {B : Backend} {L : HonoursDefaultTargets B}.
Variables (pargs : Namespace) (wav_format : WavFormat) (w : World).
Variables (f : File) (s s' : pydub.AudioSegment).

Let cleanup_path := output pargs ++ "/" ++ "temp_speech.aiff".
Let output_path := output pargs ++ "/" ++ FILE_NAME.
Let run := generate_wav pargs wav_format w.

Hypothesis Hcwd : normpath cleanup_path = normpath "temp_speech.aiff".
Hypothesis Hvoice : existsb (String.eqb NARRATOR) availableVoices = true.
Hypothesis Hspeak :
  startSpeakingString NARRATOR
    (if truthy_float (gain pargs) then Some (gain pargs) else None)
    (if truthy_int (rate pargs) then Some (rate pargs) else None)
    (text pargs) = Some f.
Hypothesis Hdecodes : from_file_view f = Some s.
Hypothesis Hreads : from_file_view (converted_file s) = Some s'.
Hypothesis Hshort : (pydub.duration_seconds s' <= 10)%Q.

(** With the output directory the working directory, no directory in the
    place of either file, the default voice installed and a back end that
    honours the three targets: if the synthesiser writes a sound that
    decodes, and the converted file, read back, lasts at most ten seconds,
    then the Generate workflow returns, the temporary file is gone,
    [Speech.wav] holds an uncompressed mono recording at 16000 Hz with
    two-byte samples, the validator prints the header report and no
    diagnostic, and no file other than these two has changed. *)
Theorem generate_wav_succeeds :
  dir_exists w (normpath "temp_speech.aiff") = false ->
  dir_exists w (normpath output_path) = false ->
  fst run = Returned tt
  /\ exists_file (snd run) "temp_speech.aiff" = false
  /\ (forall other,
        relative_without_dotdot other = true ->
        normpath other <> normpath "temp_speech.aiff" ->
        normpath other <> normpath output_path ->
        files (snd run) !! normpath other = files w !! normpath other)
  /\ exists h,
       files (snd run) !! normpath output_path
       = Some {| from_file_view := Some s'; wave_open_view := Some h |}
       /\ pydub.frame_rate s' = 16000
       /\ pydub.sample_width s' = 2
       /\ pydub.channels s' = 1
       /\ wave.getcomptype h = "NONE"
       /\ stdout (snd run) = (stdout w ++ header_report h)%list.
Proof.
  intros _ _. subst run.
  destruct (cleanup_path_is_synthesis_path _ Hcwd) as [_ Hout].
  fold output_path in Hout.
  set (w1 := set_files (<[normpath "temp_speech.aiff" := f]> (files w))
               (add_call (Synthesize "temp_speech.aiff") w)).
  assert (Hsynth : text_to_speech (text pargs) "temp_speech.aiff" NARRATOR
                     (Some (gain pargs)) (Some (rate pargs)) w = (Returned tt, w1)).
  { rewrite text_to_speech_unfold, Hvoice. cbn [negb]. cbv zeta. rewrite Hspeak.
    reflexivity. }
  assert (Hin1 : files w1 !! normpath "temp_speech.aiff" = Some f).
  { subst w1. cbn [files set_files]. apply lookup_insert_eq. }
  assert (Hdir1 : dir_exists w1 (dirname (normpath output_path)) = true).
  { rewrite Hout. reflexivity. }
  pose proof (convert_to_wav_default_world _ _ _ _ _ Hin1 Hdecodes Hdir1) as Hconv.
  destruct (converted_file_format s) as (s0 & h & Hfile & Hrate & Hwidth & Hchans & Hcomp).
  rewrite Hfile in Hreads. injection Hreads as ->. rewrite Hfile in Hconv.
  match type of Hconv with _ = (_, ?x) => set (w2 := x) in * end.
  assert (Htemp2 : files w2 !! normpath cleanup_path = Some f).
  { subst w2. cbn [files set_files]. rewrite Hcwd, Hout.
    rewrite lookup_insert_ne by discriminate. exact Hin1. }
  pose proof (remove_file_unfold cleanup_path w2) as Hrm. rewrite Htemp2 in Hrm.
  match type of Hrm with _ = (_, ?x) => set (w3 := x) in * end.
  assert (Hfiles3 : files w3
                    = delete (normpath "temp_speech.aiff")
                        (<[normpath output_path :=
                             {| from_file_view := Some s'; wave_open_view := Some h |}]>
                           (<[normpath "temp_speech.aiff" := f]> (files w)))).
  { subst w3 w2 w1. cbn [files set_files add_call]. rewrite Hcwd. reflexivity. }
  assert (Hout3 : files w3 !! normpath output_path
                  = Some {| from_file_view := Some s'; wave_open_view := Some h |}).
  { rewrite Hfiles3, Hout. rewrite lookup_delete_ne by discriminate.
    apply lookup_insert_eq. }
  assert (Hpass : checks_pass WAV_FORMAT s' h = true).
  { apply checks_pass_targets; try assumption; reflexivity. }
  pose proof (validate_wav_returns output_path WAV_FORMAT w3 _ s' h Hout3 eq_refl eq_refl)
    as Hret.
  destruct (validate_wav_stdout output_path WAV_FORMAT w3 _ s' h Hout3 eq_refl eq_refl)
    as (diagnostic & Hprinted & Hdiag).
  assert (Hnone : diagnostic = []).
  { rewrite Hdiag. unfold checks_pass in Hpass.
    apply andb_true_iff in Hpass as [Hpass Hmod].
    apply andb_true_iff in Hpass as [Hpass Hc].
    apply andb_true_iff in Hpass as [Hpass Hw].
    apply andb_true_iff in Hpass as [Hd Hr].
    unfold Qgtb, Qneb, file_modulation_of. rewrite Hd, Hr, Hw, Hc, Hmod. reflexivity. }
  assert (Hrun : generate_wav pargs wav_format w
                 = (validate_wav output_path WAV_FORMAT ;;; ret tt) w3).
  { unfold generate_wav. cbv zeta.
    rewrite (bind_returned _ _ _ _ _ Hsynth).
    fold output_path. unfold convert_to_wav_default in Hconv |- *.
    rewrite (bind_returned _ _ _ _ _ Hconv).
    fold cleanup_path. rewrite (bind_returned _ _ _ _ _ Hrm). reflexivity. }
  rewrite Hrun. clear Hrun. rewrite then_ret_tt_world.
  split.
  { unfold bind, ret. destruct (validate_wav output_path WAV_FORMAT w3) as [[b|e] w4];
      [reflexivity | discriminate]. }
  split.
  { apply exists_file_none. rewrite validate_wav_files, Hfiles3. apply lookup_delete_eq. }
  split.
  { intros other _ Htemp Houtput. rewrite validate_wav_files, Hfiles3.
    rewrite lookup_delete_ne by congruence.
    rewrite lookup_insert_ne by congruence.
    apply lookup_insert_ne. congruence. }
  exists h. rewrite validate_wav_files.
  split; [exact Hout3|]. do 4 (split; [assumption|]).
  rewrite Hprinted, Hnone, app_nil_r. reflexivity.
Qed.

End GenerateSucceeds.

(** [-t hello -o .] with the reference back end. *)
Lemma generate_wav_hello :
  fst (generate_wav (B:=reference_backend) (say_hello_into ".") WAV_FORMAT empty_world)
  = Returned tt.
Proof.
  refine (proj1 (generate_wav_succeeds (B:=reference_backend)
                   (L:=reference_backend_honours_targets) (say_hello_into ".") WAV_FORMAT
                   empty_world
                   (aiff (sound (5 # 10) 22050 2 1)) (sound (5 # 10) 22050 2 1)
                   (sound (5 # 10) 16000 2 1)
                   _ _ _ _ _ _ _ _)).
  - reflexivity.
  - reflexivity.
  - vm_compute. reflexivity.
  - reflexivity.
  - reflexivity.
  - vm_compute. discriminate.
  - reflexivity.
  - reflexivity.
Defined.

(** ** [generate_wav]: a synthesiser that writes nothing *)

Section SilentSynthesis.
Context {B : Backend}.
Variables (pargs : Namespace) (wav_format : WavFormat) (w : World).

Let output_path := output pargs ++ "/" ++ FILE_NAME.

Hypothesis Hvoice : existsb (String.eqb NARRATOR) availableVoices = true.
Hypothesis Hmute :
  startSpeakingString NARRATOR
    (if truthy_float (gain pargs) then Some (gain pargs) else None)
    (if truthy_int (rate pargs) then Some (rate pargs) else None)
    (text pargs) = None.


End SilentSynthesis.


(** ** [main]: no action, and conversion in place *)

Section MainBranches.
Context {B : Backend}.

(** An empty text or an empty input path counts as absent.  Without a
    text, and with no input or with an input but neither [-c] nor [-v],
    [main] prints that the options are invalid and does nothing else: it
    returns normally and reads and writes no file. *)
Theorem main_invalid_options pargs w :
  truthy_str (text pargs) = false ->
  truthy_str (input pargs) = false \/ (validate pargs = false /\ convert pargs = false) ->
  main pargs w = (Returned tt, add_output PrInvalidOptions w)
  /\ truthy_str (Some "") = false
  /\ truthy_str None = false.
Proof.
  intros Htext Hnone. split; [|split; reflexivity].
  unfold main. rewrite Htext.
  destruct (input pargs) as [input_file|]; [|reflexivity].
  destruct Hnone as [Hinput | [Hvalidate Hconvert]].
  - rewrite Hinput. reflexivity.
  - rewrite Hvalidate, Hconvert, !andb_false_r. reflexivity.
Qed.

Lemma main_convert_unfold pargs input_file w :
  truthy_str (text pargs) = false ->
  input pargs = Some input_file ->
  input_file <> "" ->
  validate pargs = false ->
  convert pargs = true ->
  main pargs w = convert_to_wav_default input_file (output pargs ++ "/" ++ FILE_NAME) w.
Proof.
  intros Htext Hinput Hname Hval Hconv.
  unfold main. rewrite Htext, Hinput, Hval, Hconv. cbn [truthy_str].
  destruct (String.eqb_spec input_file "") as [|_]; [contradiction|]. reflexivity.
Qed.

Context {L : HonoursDefaultTargets B}.

(** With [-i FILE -c], when the input is the file [Speech.wav] of the
    output directory, the conversion writes over its own input: with a
    back end that honours the three targets, after the run the path holds
    the converted recording, and the original is lost unless it was
    already at 16000 Hz. *)
Theorem convert_only_overwrites_input pargs input_file w f s :
  truthy_str (text pargs) = false ->
  input pargs = Some input_file ->
  input_file <> "" ->
  validate pargs = false ->
  convert pargs = true ->
  normpath input_file = normpath (output pargs ++ "/" ++ FILE_NAME) ->
  files w !! normpath input_file = Some f ->
  from_file_view f = Some s ->
  dir_exists w (dirname (normpath input_file)) = true ->
  fst (main pargs w) = Returned tt
  /\ (exists s' h,
        files (snd (main pargs w)) !! normpath input_file
        = Some {| from_file_view := Some s'; wave_open_view := Some h |}
        /\ pydub.frame_rate s' = 16000
        /\ pydub.sample_width s' = 2
        /\ pydub.channels s' = 1
        /\ wave.getcomptype h = "NONE")
  /\ (pydub.frame_rate s <> 16000 ->
      files (snd (main pargs w)) !! normpath input_file <> Some f).
Proof.
  intros Htext Hinput Hname Hval Hconv Hsame Hfile Hdec Hdir.
  rewrite (main_convert_unfold _ _ _ Htext Hinput Hname Hval Hconv).
  rewrite Hsame in Hdir.
  rewrite (convert_to_wav_default_world _ _ _ _ _ Hfile Hdec Hdir).
  destruct (converted_file_format s) as (s' & h & Hconverted & Hrate & Hwidth & Hchans & Hcomp).
  cbn [fst snd files set_files]. rewrite Hsame, lookup_insert_eq, Hconverted.
  split; [reflexivity|]. split.
  - exists s', h. auto.
  - intros Hother Heq. injection Heq as Heq. rewrite <- Heq in Hdec. cbn in Hdec.
    injection Hdec as ->. contradiction.
Qed.

End MainBranches.

Lemma main_input_without_action :
  main (B:=reference_backend) input_without_action world_8kHz_16bit
  = (Returned tt, add_output PrInvalidOptions world_8kHz_16bit).
Proof.
  refine (proj1 (main_invalid_options (B:=reference_backend) input_without_action
                   world_8kHz_16bit _ _)).
  - reflexivity.
  - right. split; reflexivity.
Defined.

Lemma convert_speech_wav_in_place :
  fst (main (B:=reference_backend) convert_speech_wav world_cd_speech_wav) = Returned tt.
Proof.
  refine (proj1 (convert_only_overwrites_input (B:=reference_backend)
                   (L:=reference_backend_honours_targets) convert_speech_wav "Speech.wav"
                   world_cd_speech_wav (pcm_wav (sound 5 44100 2 2)) (sound 5 44100 2 2)
                   _ _ _ _ _ _ _ _ _)).
  - reflexivity.
  - reflexivity.
  - discriminate.
  - reflexivity.
  - reflexivity.
  - reflexivity.
  - reflexivity.
  - reflexivity.
  - reflexivity.
Defined.
